(** * Credential vault of antigravity-agent: session refresh and model cache

    Shallow embedding of
      - [src/services/cloudcode-api.ts]  (namespace [CloudCodeAPI], [post],
        [getGoogleOAuthClientCredentials]),
      - [src/modules/use-available-models.ts]  (the zustand store
        [useAvailableModels] and its action [fetchData]),
    followed by the backup codec of the export/import commands.

    The TypeScript code is asynchronous; every [await] is modelled as a
    sequencing point of one invocation, so an invocation is a function from
    the world before it to its completion and the world after it, and no
    other invocation runs between two of its steps.  The network and the
    Tauri backend are an environment that answers each effect from the
    history of effects issued so far. *)

From Stdlib Require Import ZArith NArith List Bool.
From Stdlib Require Strings.Byte.
From stdpp Require Import base strings gmap list.

Open Scope string_scope.
#[local] Set Warnings "-register-all".

(** ** JavaScript values *)

(** Values that flow through the code: parsed JSON ([response.json()]),
    [undefined] (a property that is absent) and [Error] instances (what a
    failed [fetch], a failed [json()] or a failed operator throws).  The code
    never computes with numbers, so integers stand for them. *)
Inductive JValue : Type :=
| JUndefined
| JNull
| JBool (b : bool)
| JNum (n : Z)
| JStr (s : string)
| JArr (items : list JValue)
| JObj (props : list (string * JValue))
| JError (name message : string).

(** A promise settles in one of two ways. *)
Inductive Completion (A : Type) : Type :=
| Resolved (a : A)
| Rejected (e : JValue).
Arguments Resolved {A} a.
Arguments Rejected {A} e.

Definition TypeError (message : string) : JValue := JError "TypeError" message.

Fixpoint own_property (k : string) (props : list (string * JValue)) : option JValue :=
  match props with
  | [] => None
  | (k', v) :: rest => if String.eqb k k' then Some v else own_property k rest
  end.

(** [k in v] for a plain data key [k] (here ["error"]): an own property of an
    object; never a member of an array or of an [Error] instance; a
    [TypeError] on a primitive. *)
Definition js_in (k : string) (v : JValue) : Completion bool :=
  match v with
  | JObj props => Resolved (bool_decide (is_Some (own_property k props)))
  | JArr _ | JError _ _ => Resolved false
  | JUndefined | JNull | JBool _ | JNum _ | JStr _ =>
      Rejected (TypeError "Cannot use 'in' operator to search for a key in a primitive")
  end.

(** [v.k] for a plain data key [k] (here [access_token] and
    [cloudaicompanionProject]): [undefined] when absent, a [TypeError] on
    [undefined] and [null]. *)
Definition js_get (k : string) (v : JValue) : Completion JValue :=
  match v with
  | JObj props => Resolved (default JUndefined (own_property k props))
  | JUndefined | JNull => Rejected (TypeError "Cannot read properties of undefined or null")
  | JBool _ | JNum _ | JStr _ | JArr _ | JError _ _ => Resolved JUndefined
  end.

(** ** Accounts *)

(** The declaration of [AntigravityAccount]
    ([commands/types/account.types.ts]) is not among the sources; the four
    types below are taken from the data model of the specification. *)

(** Modelled from the spec: [token_state] of the data model. *)
Inductive TokenState : Type := Valid | UnknownMaybeExpired.

(** Modelled from the spec: [auth{access_token, refresh_handle, id_token}];
    the code reads [auth.access_token] and [auth.id_token].  [access_token]
    holds a JavaScript value because [fetchData] stores whatever the refresh
    response carries in it. *)
Record Auth : Type := mkAuth {
  access_token : JValue;
  refresh_handle : string;
  id_token : string
}.

(** Modelled from the spec: [context{project_id}], with the [email] that the
    code reads as the identity. *)
Record Context : Type := mkContext {
  email : string;
  project_id : option string
}.

(** Modelled from the spec: the account of the data model, [auth],
    [context], [raw_state] and [token_state]. *)
Record AntigravityAccount : Type := mkAccount {
  auth : Auth;
  context : Context;
  raw_state : string;
  token_state : TokenState
}.

(** [account.auth.access_token = v] *)
Definition assign_access_token (v : JValue) (a : AntigravityAccount) : AntigravityAccount :=
  {| auth := {| access_token := v;
                refresh_handle := refresh_handle (auth a);
                id_token := id_token (auth a) |};
     context := context a;
     raw_state := raw_state a;
     token_state := token_state a |}.

(** ** Requests and effects *)

(** The body of a request before serialisation: the value handed to
    [JSON.stringify], or the entries of a [URLSearchParams]. *)
Inductive Body : Type :=
| JsonBody (data : JValue)
| FormBody (params : list (string * string)).

(** A header value; [Bearer key] is the template literal [`Bearer ${key}`]
    with the interpolated value kept as it is. *)
Inductive HeaderValue : Type :=
| Plain (s : string)
| Bearer (key : JValue).

Record Request : Type := mkRequest {
  url : string;
  method : string;
  headers : list (string * HeaderValue);
  body : Body
}.

Inductive Event : Type :=
| EvFetch (r : Request)
| EvGetCurrentAntigravityAccount.

(** What the code cannot decide: the build-time variables, the answer of the
    network to a [fetch] followed by [response.json()], and the answer of the
    backend command [AccountCommands.getCurrentAntigravityAccount].  Both
    answers are functions of the history, the effect being answered last. *)
Record Env : Type := mkEnv {
  VITE_GOOGLE_OAUTH_CLIENT_ID : option string;
  VITE_GOOGLE_OAUTH_CLIENT_SECRET : option string;
  network : list Event -> Completion JValue;
  backend_current_account : list Event -> Completion (option AntigravityAccount)
}.

(** The world an invocation runs in: account objects by reference, the
    [data] field of the [useAvailableModels] store, the backup files at rest
    (one per identity) and the history of effects. *)
Record World : Type := mkWorld {
  heap : gmap nat AntigravityAccount;
  data : gmap string JValue;
  backups : gmap string string;
  log : list Event
}.

Definition with_log (lg : list Event) (w : World) : World :=
  {| heap := heap w; data := data w; backups := backups w; log := lg |}.
Definition with_heap (h : gmap nat AntigravityAccount) (w : World) : World :=
  {| heap := h; data := data w; backups := backups w; log := log w |}.
Definition with_data (d : gmap string JValue) (w : World) : World :=
  {| heap := heap w; data := d; backups := backups w; log := log w |}.

(** ** The monad of one asynchronous invocation *)

Definition Async (A : Type) : Type := World -> Completion A * World.

Definition ret {A} (a : A) : Async A := fun w => (Resolved a, w).
Definition throw {A} (e : JValue) : Async A := fun w => (Rejected e, w).
Definition bind {A B} (m : Async A) (k : A -> Async B) : Async B :=
  fun w => match m w with
           | (Resolved a, w') => k a w'
           | (Rejected e, w') => (Rejected e, w')
           end.
Definition try_catch {A} (m : Async A) (handler : JValue -> Async A) : Async A :=
  fun w => match m w with
           | (Resolved a, w') => (Resolved a, w')
           | (Rejected e, w') => handler e w'
           end.
Definition settle {A} (c : Completion A) : Async A := fun w => (c, w).

Declare Scope async_scope.
Delimit Scope async_scope with async.
Notation "x <- m ;; k" := (bind m (fun x => k))
  (at level 100, m at next level, right associativity) : async_scope.
Notation "m ;;; k" := (bind m (fun _ => k))
  (at level 100, right associativity) : async_scope.
Open Scope async_scope.

(** ** [cloudcode-api.ts] *)

Definition HTTP_CONFIG_baseURL : string := "https://daily-cloudcode-pa.sandbox.googleapis.com".
Definition HTTP_CONFIG_headers : list (string * HeaderValue) :=
  [("User-Agent", Plain "antigravity/windows/amd64");
   ("Content-Type", Plain "application/json");
   ("Accept", Plain "application/json")].
Definition GOOGLE_OAUTH_TOKEN_ENDPOINT : string := "https://oauth2.googleapis.com/token".

(** [{...base, ...extra}] on header objects: a key of [extra] replaces the
    same key of [base] in place, a new key is appended. *)
Fixpoint header_set (k : string) (v : HeaderValue) (hs : list (string * HeaderValue))
  : list (string * HeaderValue) :=
  match hs with
  | [] => [(k, v)]
  | (k', v') :: rest =>
      if String.eqb k k' then (k, v) :: rest else (k', v') :: header_set k v rest
  end.
Definition header_spread (base extra : list (string * HeaderValue)) : list (string * HeaderValue) :=
  fold_left (fun hs kv => header_set (fst kv) (snd kv) hs) extra base.

(** [URLSearchParams.prototype.set]: the first entry named [k] takes the
    value and the later ones are dropped; without one the entry is appended. *)
Fixpoint params_set (k v : string) (ps : list (string * string)) : list (string * string) :=
  match ps with
  | [] => [(k, v)]
  | (k', v') :: rest =>
      if String.eqb k k'
      then (k, v) :: List.filter (fun p => negb (String.eqb k (fst p))) rest
      else (k', v') :: params_set k v rest
  end.

(** A truthy string: defined and not empty ([!clientId], [clientSecret ||
    undefined], [if (clientSecret)]). *)
Definition truthy (s : option string) : option string :=
  match s with
  | Some "" => None
  | other => other
  end.

Section CloudCodeAPI.
Context (env : Env).

(** [await fetch(url, config)] followed by [await response.json()]: the
    request enters the history and the environment settles it. *)
Definition fetch_json (r : Request) : Async JValue :=
  fun w => let lg := (log w ++ [EvFetch r])%list in (network env lg, with_log lg w).

(** [getGoogleOAuthClientCredentials] *)
Definition getGoogleOAuthClientCredentials : Completion (string * option string) :=
  let clientId := VITE_GOOGLE_OAUTH_CLIENT_ID env in
  let clientSecret := VITE_GOOGLE_OAUTH_CLIENT_SECRET env in
  match truthy clientId with
  | None => Rejected (JError "Error" "Missing VITE_GOOGLE_OAUTH_CLIENT_ID (Google OAuth client_id)")
  | Some clientId => Resolved (clientId, truthy clientSecret)
  end.

(** [post(endpoint, data, options)] with [options = {headers}] *)
Definition post_request (endpoint : string) (data : JValue)
    (options_headers : list (string * HeaderValue)) : Request :=
  {| url := HTTP_CONFIG_baseURL ++ endpoint;
     method := "POST";
     headers := header_spread HTTP_CONFIG_headers options_headers;
     body := JsonBody data |}.
Definition post (endpoint : string) (data : JValue)
    (options_headers : list (string * HeaderValue)) : Async JValue :=
  fetch_json (post_request endpoint data options_headers).

(** In each wrapper [if ("error" in response) return
    Promise.reject(response); return response;] follows the request.
    [userinfo], the same wrapper on the user-info endpoint, is not called by
    [fetchData] and is left out. *)
Definition fetchAvailableModels (authorizationKey project : JValue) : Async JValue :=
  let requestData := JObj [("project", project)] in
  response <- post "/v1internal:fetchAvailableModels" requestData
                [("Authorization", Bearer authorizationKey)];;
  is_error <- settle (js_in "error" response);;
  if (is_error : bool) then throw response else ret response.

Definition loadCodeAssist (authorizationKey : JValue) : Async JValue :=
  let requestData := JObj [("metadata", JObj [("ideType", JStr "ANTIGRAVITY")])] in
  response <- post "/v1internal:loadCodeAssist" requestData
                [("Authorization", Bearer authorizationKey)];;
  is_error <- settle (js_in "error" response);;
  if (is_error : bool) then throw response else ret response.

Definition refreshAccessToken (refresh_token : string) : Async JValue :=
  credentials <- settle getGoogleOAuthClientCredentials;;
  let '(clientId, clientSecret) := credentials in
  let body := [("client_id", clientId);
               ("grant_type", "refresh_token");
               ("refresh_token", refresh_token)] in
  let body := match clientSecret with
              | Some secret => params_set "client_secret" secret body
              | None => body
              end in
  json <- fetch_json
            {| url := GOOGLE_OAUTH_TOKEN_ENDPOINT;
               method := "POST";
               headers := [("content-type", Plain "application/x-www-form-urlencoded")];
               body := FormBody body |};;
  is_error <- settle (js_in "error" json);;
  if (is_error : bool) then throw json else ret json.

(** [AccountCommands.getCurrentAntigravityAccount()]: a command of the
    backend, whose code is not among the sources; the environment answers it
    with an account, [null] or a rejection. *)
Definition getCurrentAntigravityAccount : Async (option AntigravityAccount) :=
  fun w => let lg := (log w ++ [EvGetCurrentAntigravityAccount])%list in
           (backend_current_account env lg, with_log lg w).

(** ** [use-available-models.ts] *)

(** Reading a field of the account object behind a reference; a reference
    to nothing is [undefined], whose fields cannot be read. *)
Definition read {A} (antigravityAccount : nat) (field : AntigravityAccount -> A) : Async A :=
  fun w => match heap w !! antigravityAccount with
           | Some a => (Resolved (field a), w)
           | None => (Rejected (TypeError "Cannot read properties of undefined or null"), w)
           end.

(** [antigravityAccount.auth.access_token = v] *)
Definition write_access_token (antigravityAccount : nat) (v : JValue) : Async unit :=
  fun w => match heap w !! antigravityAccount with
           | Some a => (Resolved tt,
                        with_heap (<[antigravityAccount := assign_access_token v a]> (heap w)) w)
           | None => (Rejected (TypeError "Cannot read properties of undefined or null"), w)
           end.

(** [setState({data: {...getState().data, [key]: v}})] *)
Definition setState_data (key : string) (v : JValue) : Async unit :=
  fun w => (Resolved tt, with_data (<[key := v]> (data w)) w).

(** [a === b] where [b] is [currentAccount?.context.email] *)
Definition strict_eq_email (a : string) (b : option string) : bool :=
  match b with
  | Some b => String.eqb a b
  | None => false
  end.

(** Lines 40 to 49 of [fetchData]: the session-initialisation call, the
    model listing and the update of the store. *)
Definition fetchData_models (antigravityAccount : nat) : Async unit :=
  token <- read antigravityAccount (fun a => access_token (auth a));;
  codeAssistResponse <- loadCodeAssist token;;
  token <- read antigravityAccount (fun a => access_token (auth a));;
  project <- settle (js_get "cloudaicompanionProject" codeAssistResponse);;
  modelsResponse <- fetchAvailableModels token project;;
  key <- read antigravityAccount (fun a => email (context a));;
  setState_data key modelsResponse.

(** Lines 26 to 38: runs when the probe carries an error; [true] stands for
    the [return] of line 32. *)
Definition fetchData_refresh (antigravityAccount : nat) : Async bool :=
  currentAccount <- getCurrentAntigravityAccount;;
  mine <- read antigravityAccount (fun a => email (context a));;
  if strict_eq_email mine (email <$> (context <$> currentAccount)) then ret true
  else
    handle <- read antigravityAccount (fun a => id_token (auth a));;
    refreshTokenResponse <- refreshAccessToken handle;;
    fresh <- settle (js_get "access_token" refreshTokenResponse);;
    write_access_token antigravityAccount fresh;;;
    ret false.

Definition fetchData (antigravityAccount : nat) : Async unit :=
  codeAssistResponse <-
    try_catch
      (token <- read antigravityAccount (fun a => access_token (auth a));;
       loadCodeAssist token)
      (fun e => ret e);;
  has_error <- settle (js_in "error" codeAssistResponse);;
  returned <- (if (has_error : bool) then fetchData_refresh antigravityAccount else ret false);;
  if (returned : bool) then ret tt else fetchData_models antigravityAccount.

End CloudCodeAPI.

(** ** The requests on the wire and how the history is read *)

(** The request [loadCodeAssist] hands to [fetch]. *)
Definition loadCodeAssist_request (authorizationKey : JValue) : Request :=
  post_request "/v1internal:loadCodeAssist"
    (JObj [("metadata", JObj [("ideType", JStr "ANTIGRAVITY")])])
    [("Authorization", Bearer authorizationKey)].

(** The request [refreshAccessToken] hands to [fetch], given the credentials. *)
Definition refresh_request (clientId : string) (clientSecret : option string)
    (refresh_token : string) : Request :=
  {| url := GOOGLE_OAUTH_TOKEN_ENDPOINT;
     method := "POST";
     headers := [("content-type", Plain "application/x-www-form-urlencoded")];
     body := FormBody
               (let body := [("client_id", clientId);
                             ("grant_type", "refresh_token");
                             ("refresh_token", refresh_token)] in
                match clientSecret with
                | Some secret => params_set "client_secret" secret body
                | None => body
                end) |}.

(** The request [fetchAvailableModels] hands to [fetch]. *)
Definition fetchAvailableModels_request (authorizationKey project : JValue) : Request :=
  post_request "/v1internal:fetchAvailableModels"
    (JObj [("project", project)])
    [("Authorization", Bearer authorizationKey)].

Definition is_refresh_call (e : Event) : bool :=
  match e with
  | EvFetch r => String.eqb (url r) GOOGLE_OAUTH_TOKEN_ENDPOINT
  | EvGetCurrentAntigravityAccount => false
  end.
Definition is_session_init_call (e : Event) : bool :=
  match e with
  | EvFetch r => String.eqb (url r) (HTTP_CONFIG_baseURL ++ "/v1internal:loadCodeAssist")
  | EvGetCurrentAntigravityAccount => false
  end.
Definition is_model_listing_call (e : Event) : bool :=
  match e with
  | EvFetch r => String.eqb (url r) (HTTP_CONFIG_baseURL ++ "/v1internal:fetchAvailableModels")
  | EvGetCurrentAntigravityAccount => false
  end.

Definition refresh_calls (lg : list Event) : nat := length (List.filter is_refresh_call lg).
Definition session_init_calls (lg : list Event) : nat :=
  length (List.filter is_session_init_call lg).

(** [URLSearchParams.prototype.get] *)
Fixpoint params_get (k : string) (ps : list (string * string)) : option string :=
  match ps with
  | [] => None
  | (k', v) :: rest => if String.eqb k k' then Some v else params_get k rest
  end.

(** A parsed response that is an object (arrays included), as opposed to a
    primitive. *)
Definition is_object (v : JValue) : bool :=
  match v with
  | JObj _ | JArr _ => true
  | _ => false
  end.

(** The parsed response has an ["error"] field. *)
Definition has_error_field (v : JValue) : bool :=
  match v with
  | JObj props => bool_decide (is_Some (own_property "error" props))
  | _ => false
  end.

(** What a wrapper makes of the settled [fetch]: a rejection is passed on,
    a parsed response goes through the test of its ["error"] field. *)
Definition wrapper_outcome (c : Completion JValue) : Completion JValue :=
  match c with
  | Rejected e => Rejected e
  | Resolved v =>
      match js_in "error" v with
      | Rejected te => Rejected te
      | Resolved true => Rejected v
      | Resolved false => Resolved v
      end
  end.

(** The effects an invocation added to the history. *)
Definition issued (before after : World) : list Event :=
  drop (length (log before)) (log after).

(** ** The backup codec *)

(** The export/import commands
    ([src-tauri/src/commands/account_manage_commands.rs]) are not among the
    sources; [encode] and [decode] follow section 4.1 of the specification
    and the envelope of its data model.  AES-256-GCM is written out as in
    NIST SP 800-38D over the block cipher; the block cipher, PBKDF2 and
    Base64 are library primitives and stay parameters. *)
Module BackupCodec.

Abbreviation byte := Byte.byte.
#[local] Instance byte_eq_dec : EqDecision byte := Stdlib.Strings.Byte.byte_eq_dec.

Definition byte_of_N (n : N) : byte := default Byte.x00 (Byte.of_N (n mod 256)).

Definition byte_xor (a b : byte) : byte :=
  byte_of_N (N.lxor (Byte.to_N a) (Byte.to_N b)).

(** Byte-wise XOR, as long as the shorter argument. *)
Fixpoint xor_stream (data pad : list byte) : list byte :=
  match data, pad with
  | d :: data', p :: pad' => byte_xor d p :: xor_stream data' pad'
  | _, _ => []
  end.

(** Big-endian integer of a byte string, and back on [len] bytes (the
    integer wraps modulo [256^len]). *)
Definition bytes_to_N (bs : list byte) : N :=
  fold_left (fun acc b => (acc * 256 + Byte.to_N b)%N) bs 0%N.
Fixpoint N_to_bytes (len : nat) (n : N) : list byte :=
  match len with
  | O => []
  | S len' => N_to_bytes len' (n / 256) ++ [byte_of_N n]
  end.

(** Zero padding to a multiple of 16 bytes. *)
Definition pad16 (bs : list byte) : list byte :=
  bs ++ replicate ((16 - length bs mod 16) mod 16) Byte.x00.

(** The 128-bit blocks of a byte string, the last one zero padded. *)
Fixpoint blocks_of (fuel : nat) (bs : list byte) : list N :=
  match fuel, bs with
  | S fuel', _ :: _ => bytes_to_N (pad16 (take 16 bs)) :: blocks_of fuel' (drop 16 bs)
  | _, _ => []
  end.

(** Multiplication in GF(2^128) with the bit order of GCM: bit 0 of a
    block is its most significant bit. *)
Definition gf_R : N := N.shiftl 225 120.
Fixpoint gf_mul_loop (i : nat) (X Z V : N) : N :=
  match i with
  | O => Z
  | S i' =>
      let Z' := if N.testbit X (N.of_nat i') then N.lxor Z V else Z in
      let V' := if N.testbit V 0 then N.lxor (N.shiftr V 1) gf_R else N.shiftr V 1 in
      gf_mul_loop i' X Z' V'
  end.
Definition gf_mul (X Y : N) : N := gf_mul_loop 128 X 0%N Y.

Definition ghash (H : N) (bs : list byte) : N :=
  fold_left (fun Y X => gf_mul (N.lxor Y X) H) (blocks_of (length bs) bs) 0%N.

(** The counter block with its last 32 bits incremented modulo 2^32. *)
Definition inc32 (cb : N) : N :=
  ((cb / 2 ^ 32) * 2 ^ 32 + (cb mod 2 ^ 32 + 1) mod 2 ^ 32)%N.

(** Modelled from the spec: the two errors of the codec in the taxonomy of
    section 7. *)
Inductive CodecError : Type := IntegrityError | DecodeError.

(** Modelled from the spec: the sealed envelope of the data model. *)
Record SealedEnvelope : Type := mkSealed {
  version : N;
  kdf : string;
  iterations : N;
  salt : list byte;
  nonce : list byte;
  ciphertext : list byte
}.

(** Modelled from the spec: the two shapes, told apart by the presence of
    the version discriminator. *)
Inductive BackupEnvelope : Type :=
| Sealed (e : SealedEnvelope)
| Legacy (text : string).

(** [n] bytes off a stream of random bytes, and the rest of the stream. *)
Definition draw (n : nat) (entropy : nat -> byte) : list byte * (nat -> byte) :=
  (map entropy (seq 0 n), fun i => entropy (n + i)%nat).

(** Modelled from the spec: the legacy format, every byte XOR the password
    repeated to length (an empty password leaves the bytes as they are). *)
Definition xor_repeating (password data : list byte) : list byte :=
  imap (fun i d => byte_xor d (nth (i mod length password) password Byte.x00)) data.

Section Primitives.
(** [pbkdf2_hmac_sha256 password salt iterations dkLen] *)
Context (pbkdf2_hmac_sha256 : list byte -> list byte -> N -> nat -> list byte).
(** AES-256 on one block, under a key. *)
Context (aes256_encrypt_block : list byte -> N -> N).
Context (base64_decode : string -> option (list byte)).

Fixpoint keystream (key : list byte) (cb : N) (blocks : nat) : list byte :=
  match blocks with
  | O => []
  | S blocks' =>
      N_to_bytes 16 (aes256_encrypt_block key cb) ++ keystream key (inc32 cb) blocks'
  end.

(** GCTR: XOR with the encrypted counter blocks, the last one cut. *)
Definition gctr (key : list byte) (icb : N) (data : list byte) : list byte :=
  xor_stream data (keystream key icb ((length data + 15) / 16)).

Definition gcm_H (key : list byte) : N := aes256_encrypt_block key 0%N.

Definition gcm_J0 (key iv : list byte) : N :=
  if Nat.eqb (length iv) 12
  then bytes_to_N (iv ++ [Byte.x00; Byte.x00; Byte.x00; Byte.x01])
  else ghash (gcm_H key)
         (pad16 iv ++ replicate 8 Byte.x00 ++ N_to_bytes 8 (8 * N.of_nat (length iv))).

Definition gcm_tag (key iv aad ct : list byte) : list byte :=
  let S := ghash (gcm_H key)
             (pad16 aad ++ pad16 ct
              ++ N_to_bytes 8 (8 * N.of_nat (length aad))
              ++ N_to_bytes 8 (8 * N.of_nat (length ct))) in
  gctr key (gcm_J0 key iv) (N_to_bytes 16 S).

(** Modelled from the spec: AES-256-GCM sealing, the ciphertext followed by
    the 16-byte tag. *)
Definition aes256_gcm_seal (key iv aad plaintext : list byte) : list byte :=
  let ct := gctr key (inc32 (gcm_J0 key iv)) plaintext in
  ct ++ gcm_tag key iv aad ct.

(** Modelled from the spec: AES-256-GCM opening; [None] is the failed tag
    check. *)
Definition aes256_gcm_open (key iv aad sealed : list byte) : option (list byte) :=
  if Nat.ltb (length sealed) 16 then None
  else
    let ct := take (length sealed - 16) sealed in
    let tag := drop (length sealed - 16) sealed in
    if bool_decide (gcm_tag key iv aad ct = tag)
    then Some (gctr key (inc32 (gcm_J0 key iv)) ct)
    else None.

(** Modelled from the spec: a 32-byte key by PBKDF2-HMAC-SHA256 over the
    password and the salt. *)
Definition derive_key (password : string) (salt : list byte) (iterations : N) : list byte :=
  pbkdf2_hmac_sha256 (String.list_byte_of_string password) salt iterations 32.

(** Modelled from the spec: [encode] of section 4.1.  A fresh 16-byte salt
    and a fresh 12-byte nonce, 210,000 iterations, AES-256-GCM with no
    associated data; only the sealed shape is produced. *)
Definition encode (raw_state : list byte) (password : string) (entropy : nat -> byte)
  : BackupEnvelope :=
  let '(salt, entropy) := draw 16 entropy in
  let '(nonce, _) := draw 12 entropy in
  let key := derive_key password salt 210000 in
  Sealed {| version := 2;
            kdf := "pbkdf2-sha256";
            iterations := 210000;
            salt := salt;
            nonce := nonce;
            ciphertext := aes256_gcm_seal key nonce [] raw_state |}.

(** Modelled from the spec: [decode] of section 4.1.  With the version
    discriminator 2 the key is derived again from the embedded salt and
    iterations and the ciphertext is opened, a failed tag check being an
    [IntegrityError]; without a discriminator the legacy path decodes Base64
    and undoes the XOR, with no integrity check.  The specification does not
    say what another discriminator gives; it is taken as neither shape. *)
Definition decode (input : BackupEnvelope) (password : string)
  : CodecError + list byte :=
  match input with
  | Sealed e =>
      if N.eqb (version e) 2 then
        let key := derive_key password (salt e) (iterations e) in
        match aes256_gcm_open key (nonce e) [] (ciphertext e) with
        | Some raw_state => inr raw_state
        | None => inl IntegrityError
        end
      else inl DecodeError
  | Legacy text =>
      match base64_decode text with
      | Some bytes => inr (xor_repeating (String.list_byte_of_string password) bytes)
      | None => inl DecodeError
      end
  end.

End Primitives.

End BackupCodec.

(** ** What is said about a run *)

Open Scope list_scope.

(** How a wrapper settles on a parsed response: it rejects with the response
    exactly when the response has an ["error"] field, resolves with the
    response otherwise, and leaves every account object as it was. *)
Definition settles_by_error_field (response : JValue)
    (run : Completion JValue * World) (before : World) : Prop :=
  (fst run = Rejected response <-> has_error_field response = true) /\
  (has_error_field response = false -> fst run = Resolved response) /\
  heap (snd run) = heap before.

(** [w'] differs from [w] by [new] effects, by the access token of the
    account behind [antigravityAccount] at most, and by the cache entry
    under [key] at most. *)
Record footprint (antigravityAccount : nat) (key : option string)
    (w w' : World) (new : list Event) : Prop := mkFootprint {
  fp_log : log w' = log w ++ new;
  fp_backups : backups w' = backups w;
  fp_heap : heap w' = heap w \/
            exists a v, heap w !! antigravityAccount = Some a /\
                        heap w' = <[antigravityAccount := assign_access_token v a]> (heap w);
  fp_data : forall k, Some k <> key -> data w' !! k = data w !! k
}.

(** ** Concrete runs *)

Module Examples.

Definition alice : AntigravityAccount :=
  {| auth := {| access_token := JStr "ya29.alice"; refresh_handle := "rh-alice";
                id_token := "idt-alice" |};
     context := {| email := "alice@example.com"; project_id := None |};
     raw_state := "raw-alice";
     token_state := UnknownMaybeExpired |}.

Definition bob : AntigravityAccount :=
  {| auth := {| access_token := JStr "ya29.bob"; refresh_handle := "rh-bob";
                id_token := "idt-bob" |};
     context := {| email := "bob@example.com"; project_id := None |};
     raw_state := "raw-bob";
     token_state := UnknownMaybeExpired |}.

(** Two account objects, a cache that knows alice, one backup each. *)
Definition world0 : World :=
  {| heap := {[ 0 := alice; 1 := bob ]};
     data := {[ "alice@example.com" := JObj [("models", JObj [])] ]};
     backups := {[ "alice@example.com" := "raw-alice"; "bob@example.com" := "raw-bob" ]};
     log := [] |}.

Definition fetches (lg : list Event) : nat :=
  length (List.filter (fun e => match e with EvFetch _ => true | _ => false end) lg).

(** A network that answers the n-th request with the n-th entry of a
    script and fails afterwards. *)
Definition scripted (answers : list (Completion JValue)) (lg : list Event)
  : Completion JValue :=
  List.nth (pred (fetches lg)) answers (Rejected (JError "TypeError" "Failed to fetch")).

Definition unauthenticated : JValue :=
  JObj [("error", JObj [("code", JNum 401); ("status", JStr "UNAUTHENTICATED")])].
Definition some_models : JValue :=
  JObj [("models", JObj [("gemini", JObj [])])].

(** Every token has expired, the grant works, alice is the active account. *)
Definition env_expired : Env :=
  {| VITE_GOOGLE_OAUTH_CLIENT_ID := Some "client-id";
     VITE_GOOGLE_OAUTH_CLIENT_SECRET := Some "client-secret";
     network := scripted [Resolved unauthenticated;
                          Resolved (JObj [("access_token", JStr "ya29.fresh")]);
                          Resolved (JObj [("cloudaicompanionProject", JStr "project-1")]);
                          Resolved some_models];
     backend_current_account := fun _ => Resolved (Some alice) |}.

(** The token is good; the two session-initialisation answers name
    different projects. *)
Definition env_valid : Env :=
  {| VITE_GOOGLE_OAUTH_CLIENT_ID := Some "client-id";
     VITE_GOOGLE_OAUTH_CLIENT_SECRET := None;
     network := scripted [Resolved (JObj [("cloudaicompanionProject", JStr "project-1")]);
                          Resolved (JObj [("cloudaicompanionProject", JStr "project-2")]);
                          Resolved some_models];
     backend_current_account := fun _ => Resolved (Some alice) |}.

(** The token is good and the session has no project. *)
Definition env_no_project : Env :=
  {| VITE_GOOGLE_OAUTH_CLIENT_ID := Some "client-id";
     VITE_GOOGLE_OAUTH_CLIENT_SECRET := None;
     network := scripted [Resolved (JObj []); Resolved (JObj []); Resolved some_models];
     backend_current_account := fun _ => Resolved (Some alice) |}.

(** A build without the OAuth client id. *)
Definition env_unconfigured : Env :=
  {| VITE_GOOGLE_OAUTH_CLIENT_ID := Some "";
     VITE_GOOGLE_OAUTH_CLIENT_SECRET := None;
     network := scripted [];
     backend_current_account := fun _ => Resolved None |}.

(** Every request is answered with the same error response. *)
Definition env_rejecting : Env :=
  {| VITE_GOOGLE_OAUTH_CLIENT_ID := Some "client-id";
     VITE_GOOGLE_OAUTH_CLIENT_SECRET := Some "client-secret";
     network := fun _ => Resolved unauthenticated;
     backend_current_account := fun _ => Resolved None |}.

End Examples.

(** ** The claims that the code does not meet, as they are stated *)

(** C1 as stated: when the first session-initialisation call fails and the
    account is the active one, no refresh is requested and neither the
    account objects nor the model cache are written. *)
Definition failed_probe_of_active_identity_changes_nothing
    (env : Env) (antigravityAccount : nat) (w : World) : Prop :=
  forall a current e,
    heap w !! antigravityAccount = Some a ->
    fst (loadCodeAssist env (access_token (auth a)) w) = Rejected e ->
    fst (getCurrentAntigravityAccount env (snd (loadCodeAssist env (access_token (auth a)) w)))
    = Resolved (Some current) ->
    email (context current) = email (context a) ->
    refresh_calls (issued w (snd (fetchData env antigravityAccount w))) = 0 /\
    heap (snd (fetchData env antigravityAccount w)) = heap w /\
    data (snd (fetchData env antigravityAccount w)) = data w.

(** C2 as stated: the grant is requested with the account's refresh handle. *)
Definition refresh_grant_uses_refresh_handle (env : Env) (antigravityAccount : nat) (w : World)
  : Prop :=
  forall a e current,
    heap w !! antigravityAccount = Some a ->
    fst (loadCodeAssist env (access_token (auth a)) w) = Rejected e ->
    has_error_field e = true ->
    fst (getCurrentAntigravityAccount env (snd (loadCodeAssist env (access_token (auth a)) w)))
    = Resolved current ->
    strict_eq_email (email (context a)) (email <$> (context <$> current)) = false ->
    forall r, In (EvFetch r) (issued w (snd (fetchData env antigravityAccount w))) ->
              is_refresh_call (EvFetch r) = true ->
              exists params, body r = FormBody params /\
                             params_get "refresh_token" params = Some (refresh_handle (auth a)).

(** C4 as stated: after a successful first call there is no further
    session-initialisation call, and the project id of that first response
    is the one used. *)
Definition single_session_init (env : Env) (antigravityAccount : nat) (w : World) : Prop :=
  forall a probe,
    heap w !! antigravityAccount = Some a ->
    fst (loadCodeAssist env (access_token (auth a)) w) = Resolved probe ->
    session_init_calls (issued w (snd (fetchData env antigravityAccount w))) = 1 /\
    forall project r,
      js_get "cloudaicompanionProject" probe = Resolved project ->
      In (EvFetch r) (issued w (snd (fetchData env antigravityAccount w))) ->
      is_model_listing_call (EvFetch r) = true ->
      body r = JsonBody (JObj [("project", project)]).

(** C8 as stated, on a run whose session-initialisation calls both resolve
    with the same response: without a project id the invocation fails and no
    model listing is requested. *)
Definition missing_project_fails (env : Env) (antigravityAccount : nat) (w : World) : Prop :=
  forall a session,
    heap w !! antigravityAccount = Some a ->
    fst (loadCodeAssist env (access_token (auth a)) w) = Resolved session ->
    fst (loadCodeAssist env (access_token (auth a))
           (snd (loadCodeAssist env (access_token (auth a)) w))) = Resolved session ->
    js_get "cloudaicompanionProject" session = Resolved JUndefined ->
    (exists e, fst (fetchData env antigravityAccount w) = Rejected e) /\
    List.filter is_model_listing_call (issued w (snd (fetchData env antigravityAccount w))) = [].

(** ** More ways to read a run *)

Definition is_backend_query (e : Event) : bool :=
  match e with
  | EvGetCurrentAntigravityAccount => true
  | EvFetch _ => false
  end.
Definition model_listing_calls (lg : list Event) : nat :=
  length (List.filter is_model_listing_call lg).
Definition backend_queries (lg : list Event) : nat :=
  length (List.filter is_backend_query lg).

(** A parsed response that is a primitive: [null], a boolean, a number or a
    string. *)
Definition is_primitive (v : JValue) : bool :=
  match v with
  | JNull | JBool _ | JNum _ | JStr _ => true
  | _ => false
  end.

(** The three URLs that [CloudCodeAPI] sends the tokens of an account to. *)
Definition fetchData_urls : list string :=
  [HTTP_CONFIG_baseURL ++ "/v1internal:loadCodeAssist";
   HTTP_CONFIG_baseURL ++ "/v1internal:fetchAvailableModels";
   GOOGLE_OAUTH_TOKEN_ENDPOINT]%string.

(** What an invocation leaves of an account object: every field but
    [auth.access_token]. *)
Definition same_but_access_token (a a' : AntigravityAccount) : Prop :=
  refresh_handle (auth a') = refresh_handle (auth a) /\
  id_token (auth a') = id_token (auth a) /\
  context a' = context a /\
  raw_state a' = raw_state a /\
  token_state a' = token_state a.

(** ** JavaScript strings by code unit *)

(** Where the code measures and trims strings they are sequences of UTF-16
    code units: [length] counts the units. *)
Module JSString.

(** WhiteSpace and LineTerminator of ECMAScript, what [trim] strips. *)
Definition is_white_space (c : N) : bool :=
  (N.eqb c 9 || N.eqb c 10 || N.eqb c 11 || N.eqb c 12 || N.eqb c 13 || N.eqb c 32
   || N.eqb c 160 || N.eqb c 5760 || (N.leb 8192 c && N.leb c 8202)
   || N.eqb c 8232 || N.eqb c 8233 || N.eqb c 8239 || N.eqb c 8287
   || N.eqb c 12288 || N.eqb c 65279)%bool.

Fixpoint trimStart (s : list N) : list N :=
  match s with
  | c :: rest => if is_white_space c then trimStart rest else s
  | [] => []
  end.
Definition trimEnd (s : list N) : list N := rev (trimStart (rev s)).
Definition trim (s : list N) : list N := trimEnd (trimStart s).

(** Nothing but white space, the empty string included. *)
Definition is_blank (s : list N) : bool := forallb is_white_space s.

(** [!s] and [s || fallback] on a string: the empty string is falsy. *)
Definition is_empty (s : list N) : bool :=
  match s with
  | [] => true
  | _ => false
  end.

End JSString.

(** ** [ImportPasswordDialog.tsx] *)

Module ImportPasswordDialog.
Import JSString.

(** The messages, as code units. *)
(** "请输入密码" *)
Definition msg_enter_password : list N := [35831; 36755; 20837; 23494; 30721]%N.
(** "密码长度至少为4位" *)
Definition msg_too_short : list N :=
  [23494; 30721; 38271; 24230; 33267; 23569; 20026; 52; 20301]%N.
(** "密码长度不能超过50位" *)
Definition msg_too_long : list N :=
  [23494; 30721; 38271; 24230; 19981; 33021; 36229; 36807; 53; 48; 20301]%N.
(** "密码无效" *)
Definition msg_invalid : list N := [23494; 30721; 26080; 25928]%N.

(** The three [useState] cells. *)
Record State : Type := mkState {
  password : list N;
  showPassword : bool;
  validationError : list N
}.

Definition initial : State :=
  {| password := []; showPassword := false; validationError := [] |}.

(** The result of [validatePassword]: [{isValid, message?}]. *)
Record Validation : Type := mkValidation {
  isValid : bool;
  message : option (list N)
}.

Definition validatePassword (password : list N) : Validation :=
  if Nat.ltb (length password) 4 then {| isValid := false; message := Some msg_too_short |}
  else if Nat.ltb 50 (length password)
       then {| isValid := false; message := Some msg_too_long |}
       else {| isValid := true; message := None |}.

(** What a handler does besides setting state: the calls on the event and
    on the props. *)
Inductive Effect : Type :=
| PreventDefault
| OnSubmit (password : list N)
| OnOpenChange (open : bool)
| OnCancel.

(** [validation.message || fallback] *)
Definition message_or (m : option (list N)) (fallback : list N) : list N :=
  match m with
  | Some (c :: rest) => c :: rest
  | _ => fallback
  end.

(** [handleSubmit]; the state written is the last [set] of each cell. *)
Definition handleSubmit (s : State) : State * list Effect :=
  if is_empty (trim (password s)) then
    ({| password := password s; showPassword := showPassword s;
        validationError := msg_enter_password |},
     [PreventDefault])
  else
    let validation := validatePassword (password s) in
    if negb (isValid validation) then
      ({| password := password s; showPassword := showPassword s;
          validationError := message_or (message validation) msg_invalid |},
       [PreventDefault])
    else
      ({| password := []; showPassword := false; validationError := [] |},
       [PreventDefault; OnSubmit (password s)]).

Definition handleClose (s : State) : State * list Effect :=
  ({| password := []; showPassword := false; validationError := [] |},
   [OnOpenChange false]).

(** [const isValid = password.trim() !== '' && validatePassword(password).isValid],
    the submit button being [disabled={!isValid}]. *)
Definition submit_enabled (s : State) : bool :=
  negb (is_empty (trim (password s))) && isValid (validatePassword (password s)).

(** What the user can do to the dialog: type, toggle the eye, submit the
    form, press cancel or the cross. *)
Inductive UIEvent : Type :=
| Change (value : list N)
| ToggleShowPassword
| Submit
| Close.

(** One event, handled on the state of the current render. *)
Definition handle (ev : UIEvent) (s : State) : State * list Effect :=
  match ev with
  | Change value =>
      ({| password := value; showPassword := showPassword s;
          validationError := validationError s |}, [])
  | ToggleShowPassword =>
      ({| password := password s; showPassword := negb (showPassword s);
          validationError := validationError s |}, [])
  | Submit => handleSubmit s
  | Close => handleClose s
  end.

Definition is_OnSubmit (e : Effect) : bool :=
  match e with
  | OnSubmit _ => true
  | _ => false
  end.
Definition is_Change (ev : UIEvent) : bool :=
  match ev with
  | Change _ => true
  | _ => false
  end.

(** A sequence of events, each handled after the render that follows the
    one before. *)
Fixpoint interact (evs : list UIEvent) (s : State) : State * list Effect :=
  match evs with
  | [] => (s, [])
  | ev :: rest =>
      let '(s1, effects1) := handle ev s in
      let '(s2, effects2) := interact rest s1 in
      (s2, effects1 ++ effects2)
  end.

End ImportPasswordDialog.

(** ** [AntigravityStatusScreen.tsx] *)

Module AntigravityStatusScreen.

(** "." *)
Definition dot : N := 46%N.

(** The updater of the interval: [prev => prev.length >= 3 ? '' : prev + '.'] *)
Definition next_dots (prev : list N) : list N :=
  if Nat.leb 3 (length prev) then [] else prev ++ [dot].

(** The state after [n] ticks of the interval, from the initial [''] . *)
Definition dots_after (n : nat) : list N := Nat.iter n next_dots [].

End AntigravityStatusScreen.

(** ** More concrete runs *)

Module MoreExamples.
Import Examples.

(** The first request fails in transport, then the network is back. *)
Definition env_transient : Env :=
  {| VITE_GOOGLE_OAUTH_CLIENT_ID := Some "client-id";
     VITE_GOOGLE_OAUTH_CLIENT_SECRET := None;
     network := scripted [Rejected (JError "TypeError" "Failed to fetch");
                          Resolved (JObj [("cloudaicompanionProject", JStr "project-1")]);
                          Resolved some_models];
     backend_current_account := fun _ => Resolved (Some alice) |}.

(** The first request is rejected with a string. *)
Definition env_string_rejection : Env :=
  {| VITE_GOOGLE_OAUTH_CLIENT_ID := Some "client-id";
     VITE_GOOGLE_OAUTH_CLIENT_SECRET := None;
     network := scripted [Rejected (JStr "error sending request")];
     backend_current_account := fun _ => Resolved (Some alice) |}.

(** The token has expired and the grant is refused. *)
Definition invalid_grant : JValue :=
  JObj [("error", JStr "invalid_grant")].
Definition env_invalid_grant : Env :=
  {| VITE_GOOGLE_OAUTH_CLIENT_ID := Some "client-id";
     VITE_GOOGLE_OAUTH_CLIENT_SECRET := Some "client-secret";
     network := scripted [Resolved unauthenticated; Resolved invalid_grant];
     backend_current_account := fun _ => Resolved (Some alice) |}.

(** The token has expired and the backend command fails. *)
Definition env_backend_down : Env :=
  {| VITE_GOOGLE_OAUTH_CLIENT_ID := Some "client-id";
     VITE_GOOGLE_OAUTH_CLIENT_SECRET := Some "client-secret";
     network := scripted [Resolved unauthenticated];
     backend_current_account := fun _ => Rejected (JStr "database is locked") |}.

(** The token has expired and the grant answers without an access token. *)
Definition env_no_access_token : Env :=
  {| VITE_GOOGLE_OAUTH_CLIENT_ID := Some "client-id";
     VITE_GOOGLE_OAUTH_CLIENT_SECRET := Some "client-secret";
     network := scripted [Resolved unauthenticated;
                          Resolved (JObj [("expires_in", JNum 3599)]);
                          Resolved unauthenticated];
     backend_current_account := fun _ => Resolved None |}.

(** Every answer is [null]. *)
Definition env_null : Env :=
  {| VITE_GOOGLE_OAUTH_CLIENT_ID := Some "client-id";
     VITE_GOOGLE_OAUTH_CLIENT_SECRET := Some "client-secret";
     network := fun _ => Resolved JNull;
     backend_current_account := fun _ => Resolved None |}.

(** Every request fails in transport. *)
Definition env_offline : Env :=
  {| VITE_GOOGLE_OAUTH_CLIENT_ID := Some "client-id";
     VITE_GOOGLE_OAUTH_CLIENT_SECRET := Some "client-secret";
     network := fun _ => Rejected (JError "TypeError" "Failed to fetch");
     backend_current_account := fun _ => Resolved None |}.

(** "abcd1234" *)
Definition abcd1234 : list N := [97; 98; 99; 100; 49; 50; 51; 52]%N.

End MoreExamples.

(** * Properties *)

(** ** The wrappers of [CloudCodeAPI] *)

Section Wrappers.
Context (env : Env).

Lemma fetch_then_test_run (r : Request) (w : World) :
  (response <- fetch_json env r;;
   is_error <- settle (js_in "error" response);;
   if (is_error : bool) then throw response else ret response) w
  = (wrapper_outcome (network env (log w ++ [EvFetch r])),
     with_log (log w ++ [EvFetch r]) w).
Proof.
  unfold bind, fetch_json, settle, wrapper_outcome.
  destruct (network env (log w ++ [EvFetch r])) as [v|e]; [|reflexivity].
  destruct (js_in "error" v) as [[|]|]; reflexivity.
Qed.

Lemma loadCodeAssist_run (key : JValue) (w : World) :
  loadCodeAssist env key w
  = (wrapper_outcome (network env (log w ++ [EvFetch (loadCodeAssist_request key)])),
     with_log (log w ++ [EvFetch (loadCodeAssist_request key)]) w).
Proof. apply fetch_then_test_run. Qed.

Lemma fetchAvailableModels_run (key project : JValue) (w : World) :
  fetchAvailableModels env key project w
  = (wrapper_outcome
       (network env (log w ++ [EvFetch (fetchAvailableModels_request key project)])),
     with_log (log w ++ [EvFetch (fetchAvailableModels_request key project)]) w).
Proof. apply fetch_then_test_run. Qed.

Lemma refreshAccessToken_run (refresh_token clientId : string) (w : World) :
  truthy (VITE_GOOGLE_OAUTH_CLIENT_ID env) = Some clientId ->
  let r := refresh_request clientId (truthy (VITE_GOOGLE_OAUTH_CLIENT_SECRET env))
             refresh_token in
  refreshAccessToken env refresh_token w
  = (wrapper_outcome (network env (log w ++ [EvFetch r])),
     with_log (log w ++ [EvFetch r]) w).
Proof.
  intros Hid r. unfold refreshAccessToken, getGoogleOAuthClientCredentials.
  rewrite Hid. unfold bind at 1. unfold settle.
  apply fetch_then_test_run.
Qed.

Lemma refreshAccessToken_unconfigured (refresh_token : string) (w : World) :
  truthy (VITE_GOOGLE_OAUTH_CLIENT_ID env) = None ->
  refreshAccessToken env refresh_token w
  = (Rejected (JError "Error" "Missing VITE_GOOGLE_OAUTH_CLIENT_ID (Google OAuth client_id)"),
     w).
Proof.
  intros Hid. unfold refreshAccessToken, getGoogleOAuthClientCredentials.
  rewrite Hid. reflexivity.
Qed.

Lemma wrapper_outcome_object (response : JValue) :
  is_object response = true ->
  wrapper_outcome (Resolved response)
  = if has_error_field response then Rejected response else Resolved response.
Proof.
  destruct response; simpl; try discriminate; intros _; [reflexivity|].
  destruct (bool_decide _); reflexivity.
Qed.

Lemma settles_by_error_field_intro (response : JValue) (w0 w : World) :
  is_object response = true ->
  heap w = heap w0 ->
  settles_by_error_field response (wrapper_outcome (Resolved response), w) w0.
Proof.
  intros Hobj Hheap. rewrite (wrapper_outcome_object _ Hobj).
  unfold settles_by_error_field; simpl.
  destruct (has_error_field response); repeat split; try done.
Qed.

(** C7: on a parsed response object, [loadCodeAssist],
    [fetchAvailableModels] and [refreshAccessToken] reject with the response
    if and only if it has an ["error"] field, resolve with the response
    itself otherwise, and change no account object either way. *)
Theorem wrappers_reject_iff_error_field (response : JValue) (w : World) :
  is_object response = true ->
  (forall key,
      network env (log w ++ [EvFetch (loadCodeAssist_request key)]) = Resolved response ->
      settles_by_error_field response (loadCodeAssist env key w) w) /\
  (forall key project,
      network env (log w ++ [EvFetch (fetchAvailableModels_request key project)])
      = Resolved response ->
      settles_by_error_field response (fetchAvailableModels env key project w) w) /\
  (forall refresh_token clientId,
      truthy (VITE_GOOGLE_OAUTH_CLIENT_ID env) = Some clientId ->
      network env (log w ++ [EvFetch (refresh_request clientId
                                        (truthy (VITE_GOOGLE_OAUTH_CLIENT_SECRET env))
                                        refresh_token)])
      = Resolved response ->
      settles_by_error_field response (refreshAccessToken env refresh_token w) w).
Proof.
  intros Hobj. split; [|split].
  - intros key Hnet. rewrite loadCodeAssist_run, Hnet.
    by apply settles_by_error_field_intro.
  - intros key project Hnet. rewrite fetchAvailableModels_run, Hnet.
    by apply settles_by_error_field_intro.
  - intros refresh_token clientId Hid Hnet.
    rewrite (refreshAccessToken_run _ _ _ Hid). simpl. rewrite Hnet.
    by apply settles_by_error_field_intro.
Qed.

(** A parsed response that is a primitive ([null], a number, a string) is
    outside that rule: the [in] operator throws and the wrapper rejects
    with the [TypeError]. *)
Lemma wrapper_outcome_primitive (response : JValue) :
  is_object response = false ->
  (forall name message, response <> JError name message) ->
  exists message, wrapper_outcome (Resolved response) = Rejected (TypeError message).
Proof.
  intros Hobj Hne. destruct response; simpl in *; try discriminate; eauto.
  exfalso. by eapply Hne.
Qed.

(** C10: without a client id (undefined or empty) [refreshAccessToken]
    rejects and the history gains no request; with one, exactly one request
    is issued, a form carrying [client_id], [grant_type=refresh_token] and
    [refresh_token], and [client_secret] exactly when a secret is
    configured. *)
Theorem refreshAccessToken_credentials (refresh_token : string) (w : World) :
  (truthy (VITE_GOOGLE_OAUTH_CLIENT_ID env) = None ->
   exists e, refreshAccessToken env refresh_token w = (Rejected e, w)) /\
  (forall clientId,
      truthy (VITE_GOOGLE_OAUTH_CLIENT_ID env) = Some clientId ->
      exists params,
        log (snd (refreshAccessToken env refresh_token w))
        = log w ++ [EvFetch {| url := GOOGLE_OAUTH_TOKEN_ENDPOINT;
                               method := "POST";
                               headers := [("content-type",
                                            Plain "application/x-www-form-urlencoded")];
                               body := FormBody params |}] /\
        params_get "client_id" params = Some clientId /\
        params_get "grant_type" params = Some "refresh_token" /\
        params_get "refresh_token" params = Some refresh_token /\
        params_get "client_secret" params = truthy (VITE_GOOGLE_OAUTH_CLIENT_SECRET env) /\
        forall k, is_Some (params_get k params) ->
                  k ∈ ["client_id"; "grant_type"; "refresh_token"; "client_secret"]).
Proof.
  split.
  - intros Hid. eexists. by apply refreshAccessToken_unconfigured.
  - intros clientId Hid. rewrite (refreshAccessToken_run _ _ _ Hid). simpl.
    unfold refresh_request.
    destruct (truthy (VITE_GOOGLE_OAUTH_CLIENT_SECRET env)) as [secret|];
      eexists; (split; [reflexivity|]); simpl; repeat split; try reflexivity.
    all: intros k [v Hk]; simpl in Hk.
    all: repeat match type of Hk with
           | context [String.eqb ?x ?s] =>
               destruct (String.eqb_spec x s) as [->|_];
               [set_solver|]
           end; discriminate.
Qed.

(** *** Failures and credentials *)

Lemma wrapper_outcome_of_primitive (response : JValue) :
  is_primitive response = true ->
  wrapper_outcome (Resolved response)
  = Rejected (TypeError "Cannot use 'in' operator to search for a key in a primitive").
Proof. destruct response; simpl; try discriminate; reflexivity. Qed.

(** X1: a wrapper whose request fails in transport rejects with the very
    value that [fetch] or [json()] threw.  Whatever the network answers, the
    wrapper leaves the accounts, the cache and the backups alone and adds
    its one request to the history. *)
Theorem wrappers_pass_transport_failure (e : JValue) (w : World) :
  (forall key,
      let r := loadCodeAssist_request key in
      snd (loadCodeAssist env key w) = with_log (log w ++ [EvFetch r]) w /\
      (network env (log w ++ [EvFetch r]) = Rejected e ->
       fst (loadCodeAssist env key w) = Rejected e)) /\
  (forall key project,
      let r := fetchAvailableModels_request key project in
      snd (fetchAvailableModels env key project w) = with_log (log w ++ [EvFetch r]) w /\
      (network env (log w ++ [EvFetch r]) = Rejected e ->
       fst (fetchAvailableModels env key project w) = Rejected e)) /\
  (forall refresh_token clientId,
      truthy (VITE_GOOGLE_OAUTH_CLIENT_ID env) = Some clientId ->
      let r := refresh_request clientId (truthy (VITE_GOOGLE_OAUTH_CLIENT_SECRET env))
                 refresh_token in
      snd (refreshAccessToken env refresh_token w) = with_log (log w ++ [EvFetch r]) w /\
      (network env (log w ++ [EvFetch r]) = Rejected e ->
       fst (refreshAccessToken env refresh_token w) = Rejected e)).
Proof.
  split; [|split].
  - intros key. cbn zeta. rewrite loadCodeAssist_run. split; [reflexivity|].
    cbn [fst]. by intros ->.
  - intros key project. cbn zeta. rewrite fetchAvailableModels_run. split; [reflexivity|].
    cbn [fst]. by intros ->.
  - intros refresh_token clientId Hid. cbn zeta. rewrite (refreshAccessToken_run _ _ _ Hid).
    split; [reflexivity|]. cbn [fst]. by intros ->.
Qed.

(** X2: when the endpoint answers with JSON that is not an object ([null],
    a boolean, a number, a string), the test of the ["error"] field throws
    and the wrapper rejects with a [TypeError], not with the response. *)
Theorem wrappers_reject_primitive_response (response : JValue) (w : World) :
  is_primitive response = true ->
  (forall key,
      network env (log w ++ [EvFetch (loadCodeAssist_request key)]) = Resolved response ->
      exists message,
        fst (loadCodeAssist env key w) = Rejected (TypeError message) /\
        TypeError message <> response) /\
  (forall key project,
      network env (log w ++ [EvFetch (fetchAvailableModels_request key project)])
      = Resolved response ->
      exists message,
        fst (fetchAvailableModels env key project w) = Rejected (TypeError message) /\
        TypeError message <> response) /\
  (forall refresh_token clientId,
      truthy (VITE_GOOGLE_OAUTH_CLIENT_ID env) = Some clientId ->
      network env (log w ++ [EvFetch (refresh_request clientId
                                        (truthy (VITE_GOOGLE_OAUTH_CLIENT_SECRET env))
                                        refresh_token)])
      = Resolved response ->
      exists message,
        fst (refreshAccessToken env refresh_token w) = Rejected (TypeError message) /\
        TypeError message <> response).
Proof.
  intros Hprim.
  assert (forall message, TypeError message <> response) as Hne.
  { intros message <-. discriminate Hprim. }
  split; [|split].
  - intros key Hnet. rewrite loadCodeAssist_run, Hnet, wrapper_outcome_of_primitive by done.
    eauto.
  - intros key project Hnet.
    rewrite fetchAvailableModels_run, Hnet, wrapper_outcome_of_primitive by done. eauto.
  - intros refresh_token clientId Hid Hnet.
    rewrite (refreshAccessToken_run _ _ _ Hid). cbn zeta.
    rewrite Hnet, wrapper_outcome_of_primitive by done. eauto.
Qed.

(** X3: [getGoogleOAuthClientCredentials] returns exactly when the client
    id is a non-empty string; what it returns is that id and a secret that
    is either absent or the configured non-empty string, never the empty
    one. *)
Theorem credentials_are_never_empty :
  (forall clientId clientSecret,
      getGoogleOAuthClientCredentials env = Resolved (clientId, clientSecret) ->
      VITE_GOOGLE_OAUTH_CLIENT_ID env = Some clientId /\ clientId <> "" /\
      clientSecret <> Some "" /\
      (forall secret, clientSecret = Some secret ->
                      VITE_GOOGLE_OAUTH_CLIENT_SECRET env = Some secret) /\
      (clientSecret = None ->
       VITE_GOOGLE_OAUTH_CLIENT_SECRET env = None \/
       VITE_GOOGLE_OAUTH_CLIENT_SECRET env = Some "")) /\
  ((exists e, getGoogleOAuthClientCredentials env = Rejected e) <->
   VITE_GOOGLE_OAUTH_CLIENT_ID env = None \/ VITE_GOOGLE_OAUTH_CLIENT_ID env = Some "").
Proof.
  unfold getGoogleOAuthClientCredentials, truthy. split.
  - intros clientId clientSecret.
    destruct (VITE_GOOGLE_OAUTH_CLIENT_ID env) as [[|c id]|]; try discriminate.
    intros [= <- <-]. split; [reflexivity|]. split; [discriminate|].
    destruct (VITE_GOOGLE_OAUTH_CLIENT_SECRET env) as [[|c' secret]|].
    + repeat split; try discriminate. by right.
    + repeat split; try discriminate. by intros secret' [= <-].
    + repeat split; try discriminate. by left.
  - destruct (VITE_GOOGLE_OAUTH_CLIENT_ID env) as [[|c id]|]; split.
    all: try (intros _; eauto; fail).
    all: try (intros [e He]; discriminate He).
    intros [H|H]; discriminate H.
Qed.

End Wrappers.

(** ** [fetchData] *)

Section FetchData.
Context (env : Env).

Lemma refreshAccessToken_cases (refresh_token : string) (w : World) :
  refreshAccessToken env refresh_token w
  = match truthy (VITE_GOOGLE_OAUTH_CLIENT_ID env) with
    | None =>
        (Rejected (JError "Error"
                     "Missing VITE_GOOGLE_OAUTH_CLIENT_ID (Google OAuth client_id)"), w)
    | Some clientId =>
        let r := refresh_request clientId
                   (truthy (VITE_GOOGLE_OAUTH_CLIENT_SECRET env)) refresh_token in
        (wrapper_outcome (network env (log w ++ [EvFetch r])),
         with_log (log w ++ [EvFetch r]) w)
    end.
Proof.
  destruct (truthy (VITE_GOOGLE_OAUTH_CLIENT_ID env)) as [clientId|] eqn:Hid.
  - by apply refreshAccessToken_run.
  - by apply refreshAccessToken_unconfigured.
Qed.

(** What a wrapper resolves with has no ["error"] field, and its
    properties can be read. *)
Lemma wrapper_outcome_resolved (c : Completion JValue) (r : JValue) :
  wrapper_outcome c = Resolved r -> js_in "error" r = Resolved false.
Proof.
  destruct c as [v|e]; simpl; [|discriminate].
  destruct (js_in "error" v) as [[|]|] eqn:Hin; intros [= <-]; exact Hin.
Qed.

Lemma js_get_after_in (k k' : string) (r : JValue) (b : bool) :
  js_in k r = Resolved b -> exists v, js_get k' r = Resolved v.
Proof. destruct r; simpl; intros H; try discriminate; eauto. Qed.

Lemma has_error_field_in (e : JValue) :
  has_error_field e = true -> js_in "error" e = Resolved true.
Proof. destruct e; simpl; try discriminate. by intros ->. Qed.

Ltac run_wrappers :=
  rewrite ?loadCodeAssist_run, ?fetchAvailableModels_run, ?refreshAccessToken_cases.

(** The [return] of line 32. *)
Lemma fetchData_active_identity_returns
    (antigravityAccount : nat) (w : World) (a current : AntigravityAccount) (e : JValue) :
  heap w !! antigravityAccount = Some a ->
  fst (loadCodeAssist env (access_token (auth a)) w) = Rejected e ->
  has_error_field e = true ->
  fst (getCurrentAntigravityAccount env (snd (loadCodeAssist env (access_token (auth a)) w)))
  = Resolved (Some current) ->
  email (context current) = email (context a) ->
  fetchData env antigravityAccount w
  = (Resolved tt,
     with_log (log w ++ [EvFetch (loadCodeAssist_request (access_token (auth a)));
                         EvGetCurrentAntigravityAccount]) w).
Proof.
  intros Hacc Hprobe Herr Hcur Hsame.
  revert Hprobe Hcur. run_wrappers. simpl. intros Hprobe Hcur.
  unfold fetchData, try_catch, bind at 1 2 3, read. rewrite Hacc.
  run_wrappers. rewrite Hprobe. unfold ret at 1.
  unfold settle at 1. rewrite (has_error_field_in _ Herr).
  unfold fetchData_refresh, bind at 1 2 3, getCurrentAntigravityAccount.
  simpl. rewrite Hcur. unfold read. simpl. rewrite Hacc. simpl.
  rewrite Hsame, String.eqb_refl. simpl. by rewrite <- app_assoc.
Qed.

(** A caught value on which the [in] operator throws ends the invocation. *)
Lemma fetchData_probe_primitive
    (antigravityAccount : nat) (w : World) (a : AntigravityAccount) (e te : JValue) :
  heap w !! antigravityAccount = Some a ->
  fst (loadCodeAssist env (access_token (auth a)) w) = Rejected e ->
  js_in "error" e = Rejected te ->
  fetchData env antigravityAccount w
  = (Rejected te, snd (loadCodeAssist env (access_token (auth a)) w)).
Proof.
  intros Hacc. run_wrappers. cbn [fst snd]. intros Hprobe Hin.
  unfold fetchData. unfold try_catch, bind at 1 2 3 4, read at 1.
  rewrite Hacc. run_wrappers. rewrite Hprobe.
  unfold ret at 1, settle at 1. by rewrite Hin.
Qed.

(** *** What each block of [fetchData] may touch *)

Lemma footprint_refl antigravityAccount key w :
  footprint antigravityAccount key w w [].
Proof. split; auto. by rewrite app_nil_r. Qed.

Lemma footprint_log antigravityAccount key w new :
  footprint antigravityAccount key w (with_log (log w ++ new) w) new.
Proof. split; auto. Qed.

Ltac unfold_async :=
  unfold bind, try_catch, settle, ret, throw, read, write_access_token, setState_data,
    getCurrentAntigravityAccount.

Ltac case_step :=
  match goal with
  | H : ?x = _ |- context [match ?x with _ => _ end] => rewrite H
  | |- context [match ?x with _ => _ end] =>
      lazymatch x with
      | context [match _ with _ => _ end] => fail
      | _ => destruct x eqn:?
      end
  end.

Ltac crunch :=
  repeat first
    [ progress run_wrappers
    | progress cbn [fst snd log heap data backups with_log with_heap with_data]
    | rewrite lookup_insert_eq
    | case_step ].

(** Lines 40 to 49 issue one session-initialisation call, no refresh, and
    write the cache under the account's email only. *)
Lemma fetchData_models_footprint (antigravityAccount : nat) (w : World) (a : AntigravityAccount) :
  heap w !! antigravityAccount = Some a ->
  let w' := snd (fetchData_models env antigravityAccount w) in
  heap w' = heap w /\
  footprint antigravityAccount (Some (email (context a))) w w' (issued w w') /\
  refresh_calls (issued w w') = 0 /\
  session_init_calls (issued w w') = 1.
Proof.
  intros Hacc. unfold fetchData_models. unfold_async. crunch.
  all: unfold issued; cbn [log with_log with_data];
    rewrite <- ?app_assoc, drop_app_length.
  all: (split; [reflexivity|]); (split; [|split; reflexivity]).
  all: split; cbn [fst snd log heap data backups with_log with_heap with_data];
    rewrite <- ?app_assoc; auto.
  intros k Hk. apply lookup_insert_ne. congruence.
Qed.

Ltac impossible_response :=
  match goal with
  | H : wrapper_outcome _ = Resolved ?r, H' : js_in "error" ?r = _ |- _ =>
      rewrite (wrapper_outcome_resolved _ _ H) in H'; discriminate
  end.

Ltac settle_issued :=
  unfold issued; cbn [fst snd log heap data backups with_log with_heap with_data];
  rewrite <- ?app_assoc, ?drop_app_length, ?drop_all.

(** All of [fetchData] at once. *)
Lemma fetchData_footprint (antigravityAccount : nat) (w : World) (a : AntigravityAccount) :
  heap w !! antigravityAccount = Some a ->
  let w' := snd (fetchData env antigravityAccount w) in
  footprint antigravityAccount (Some (email (context a))) w w' (issued w w') /\
  refresh_calls (issued w w') <= 1 /\
  (forall r, fst (loadCodeAssist env (access_token (auth a)) w) = Resolved r ->
             refresh_calls (issued w w') = 0) /\
  (fst (fetchData env antigravityAccount w) = Resolved tt ->
   data w' = data w \/ exists models, data w' = <[email (context a) := models]> (data w)).
Proof.
  intros Hacc. unfold fetchData, fetchData_refresh, fetchData_models. unfold_async.
  crunch; try impossible_response.
  all: settle_issued.
  all: split; [split|].
  all: cbn [fst snd log heap data backups with_log with_heap with_data
            email context assign_access_token];
    rewrite <- ?app_assoc, ?app_nil_r.
  all: try reflexivity.
  all: try solve [left; reflexivity | right; eauto].
  all: try solve [intros k Hk; try reflexivity; apply lookup_insert_ne; congruence].
  all: split; [vm_compute; lia|].
  all: split; [intros r0; run_wrappers; cbn [fst]; intros Hr0;
               try congruence; try reflexivity|].
  all: try (intros _; eauto); try discriminate.
Qed.

(** *** The paths through [fetchData] *)

Lemma fetchData_dangling (antigravityAccount : nat) (w : World) :
  heap w !! antigravityAccount = None ->
  fetchData env antigravityAccount w
  = (Rejected (TypeError "Cannot read properties of undefined or null"), w).
Proof.
  intros Hacc. unfold fetchData, fetchData_models. unfold_async.
  rewrite Hacc. cbn. by rewrite Hacc.
Qed.

(** Whatever the probe settled with, resolved or caught, a value without
    an ["error"] field skips lines 27 to 38: a thrown [Error] (a failed
    [fetch] or [json()]) does not reach the refresh either. *)
Lemma fetchData_probe_without_error
    (antigravityAccount : nat) (w : World) (a : AntigravityAccount) (c : JValue) :
  heap w !! antigravityAccount = Some a ->
  fst (loadCodeAssist env (access_token (auth a)) w) = Resolved c \/
  fst (loadCodeAssist env (access_token (auth a)) w) = Rejected c ->
  js_in "error" c = Resolved false ->
  fetchData env antigravityAccount w
  = fetchData_models env antigravityAccount
      (snd (loadCodeAssist env (access_token (auth a)) w)).
Proof.
  intros Hacc. run_wrappers. cbn [fst snd]. intros Hprobe Hin.
  unfold fetchData. unfold try_catch, bind at 1 2 3 4, read at 1.
  rewrite Hacc. run_wrappers.
  destruct Hprobe as [-> | ->]; unfold ret at 1, settle at 1; rewrite Hin; reflexivity.
Qed.

(** A probe that resolves leads straight to line 40. *)
Lemma fetchData_probe_resolved
    (antigravityAccount : nat) (w : World) (a : AntigravityAccount) (r : JValue) :
  heap w !! antigravityAccount = Some a ->
  fst (loadCodeAssist env (access_token (auth a)) w) = Resolved r ->
  fetchData env antigravityAccount w
  = fetchData_models env antigravityAccount
      (snd (loadCodeAssist env (access_token (auth a)) w)).
Proof.
  intros Hacc Hprobe.
  apply (fetchData_probe_without_error _ _ _ r Hacc); [by left|].
  revert Hprobe. run_wrappers. apply wrapper_outcome_resolved.
Qed.

(** A probe rejected with an error response, for an account that is not
    the active one, leads to the refresh grant with [auth.id_token]. *)
Lemma fetchData_probe_rejected
    (antigravityAccount : nat) (w : World) (a : AntigravityAccount) (e : JValue)
    (current : option AntigravityAccount) :
  heap w !! antigravityAccount = Some a ->
  fst (loadCodeAssist env (access_token (auth a)) w) = Rejected e ->
  has_error_field e = true ->
  let w1 := snd (loadCodeAssist env (access_token (auth a)) w) in
  fst (getCurrentAntigravityAccount env w1) = Resolved current ->
  strict_eq_email (email (context a)) (email <$> (context <$> current)) = false ->
  let w2 := snd (getCurrentAntigravityAccount env w1) in
  fetchData env antigravityAccount w
  = match refreshAccessToken env (id_token (auth a)) w2 with
    | (Resolved refreshTokenResponse, w3) =>
        match js_get "access_token" refreshTokenResponse with
        | Resolved fresh =>
            fetchData_models env antigravityAccount
              (with_heap (<[antigravityAccount := assign_access_token fresh a]> (heap w3)) w3)
        | Rejected te => (Rejected te, w3)
        end
    | (Rejected e', w3) => (Rejected e', w3)
    end.
Proof.
  intros Hacc. rewrite !loadCodeAssist_run. cbn [fst snd]. intros Hprobe Herr.
  unfold getCurrentAntigravityAccount. cbn [fst snd log with_log]. intros Hcur Hne.
  unfold fetchData. unfold try_catch, bind at 1 2 3 4, read at 1.
  rewrite Hacc, loadCodeAssist_run, Hprobe.
  unfold ret at 1, settle at 1. rewrite (has_error_field_in _ Herr).
  unfold fetchData_refresh, getCurrentAntigravityAccount.
  unfold bind at 1 2 3. cbn [fst snd log with_log]. rewrite Hcur.
  unfold read at 1. cbn [heap with_log]. rewrite Hacc, Hne.
  unfold bind at 1 2, read at 1. cbn [heap with_log]. rewrite Hacc.
  destruct (refreshAccessToken env (id_token (auth a)) _) as [[r|e'] w3] eqn:Hrefresh;
    [|reflexivity].
  assert (heap w3 = heap w) as Hheap.
  { revert Hrefresh. run_wrappers.
    destruct (truthy _); intros [= _ <-]; reflexivity. }
  unfold bind, settle.
  destruct (js_get "access_token" r) as [fresh|te]; [|reflexivity].
  unfold write_access_token. rewrite Hheap, Hacc. reflexivity.
Qed.

(** Lines 40 to 49 with the reads of the account resolved. *)
Lemma fetchData_models_run (antigravityAccount : nat) (w : World) (a : AntigravityAccount) :
  heap w !! antigravityAccount = Some a ->
  fetchData_models env antigravityAccount w
  = match loadCodeAssist env (access_token (auth a)) w with
    | (Resolved codeAssistResponse, w1) =>
        match js_get "cloudaicompanionProject" codeAssistResponse with
        | Resolved project =>
            match fetchAvailableModels env (access_token (auth a)) project w1 with
            | (Resolved modelsResponse, w2) =>
                (Resolved tt,
                 with_data (<[email (context a) := modelsResponse]> (data w2)) w2)
            | (Rejected e, w2) => (Rejected e, w2)
            end
        | Rejected te => (Rejected te, w1)
        end
    | (Rejected e, w1) => (Rejected e, w1)
    end.
Proof.
  intros Hacc. unfold fetchData_models. unfold_async. rewrite Hacc.
  rewrite !loadCodeAssist_run.
  destruct (wrapper_outcome _) as [r|e]; [|reflexivity].
  cbn [heap with_log]. rewrite Hacc.
  destruct (js_get "cloudaicompanionProject" r) as [project|te]; [|reflexivity].
  rewrite !fetchAvailableModels_run.
  destruct (wrapper_outcome _) as [m|e]; [|reflexivity].
  cbn [heap with_log]. by rewrite Hacc.
Qed.

(** C8 (amended): once the session-initialisation call of line 40 has
    resolved, the model listing is requested with the
    [cloudaicompanionProject] of that response, [undefined] when the
    response has none; there is no check of the project id and no
    aggregation error.  What the listing resolves with is stored under the
    account's email; a rejected listing rejects the invocation and leaves
    the cache alone. *)
Theorem models_keyed_by_project_cached_by_email
    (antigravityAccount : nat) (w : World) (a : AntigravityAccount) (session : JValue) :
  heap w !! antigravityAccount = Some a ->
  fst (loadCodeAssist env (access_token (auth a)) w) = Resolved session ->
  let w1 := snd (loadCodeAssist env (access_token (auth a)) w) in
  let w' := snd (fetchData_models env antigravityAccount w) in
  exists project,
    js_get "cloudaicompanionProject" session = Resolved project /\
    (forall props, session = JObj props ->
                   project = default JUndefined (own_property "cloudaicompanionProject" props)) /\
    issued w w' = [EvFetch (loadCodeAssist_request (access_token (auth a)));
                   EvFetch (fetchAvailableModels_request (access_token (auth a)) project)] /\
    (forall models,
        fst (fetchAvailableModels env (access_token (auth a)) project w1) = Resolved models ->
        fst (fetchData_models env antigravityAccount w) = Resolved tt /\
        data w' = <[email (context a) := models]> (data w)) /\
    (forall e,
        fst (fetchAvailableModels env (access_token (auth a)) project w1) = Rejected e ->
        fst (fetchData_models env antigravityAccount w) = Rejected e /\
        data w' = data w).
Proof.
  intros Hacc Hsession w1 w'. subst w1 w'.
  rewrite (fetchData_models_run _ _ _ Hacc).
  revert Hsession. rewrite !loadCodeAssist_run. cbn [fst snd]. intros Hsession.
  rewrite Hsession.
  destruct (js_get_after_in "error" "cloudaicompanionProject" session false
              (wrapper_outcome_resolved _ _ Hsession)) as [project Hproject].
  exists project. rewrite Hproject, !fetchAvailableModels_run.
  split; [reflexivity|]. split.
  { intros props ->. simpl in Hproject. congruence. }
  cbn [fst snd log with_log].
  destruct (wrapper_outcome (network env ((_ ++ _) ++ _))) as [m|e']; settle_issued.
  all: split; [reflexivity|]; split; intros ? [= <-]; split; reflexivity.
Qed.

(** C4 (amended): when the first session-initialisation call resolves,
    [fetchData] goes on to line 40 and issues the call a second time with
    the same access token: two session-initialisation calls, no refresh,
    and the project id handed to the model listing is the one of the second
    response. *)
Theorem probe_success_repeats_session_init
    (antigravityAccount : nat) (w : World) (a : AntigravityAccount) (probe : JValue) :
  heap w !! antigravityAccount = Some a ->
  fst (loadCodeAssist env (access_token (auth a)) w) = Resolved probe ->
  let w1 := snd (loadCodeAssist env (access_token (auth a)) w) in
  let w' := snd (fetchData env antigravityAccount w) in
  take 2 (issued w w') = [EvFetch (loadCodeAssist_request (access_token (auth a)));
                          EvFetch (loadCodeAssist_request (access_token (auth a)))] /\
  session_init_calls (issued w w') = 2 /\
  refresh_calls (issued w w') = 0 /\
  heap w' = heap w /\
  (forall session project,
      fst (loadCodeAssist env (access_token (auth a)) w1) = Resolved session ->
      js_get "cloudaicompanionProject" session = Resolved project ->
      issued w w' = [EvFetch (loadCodeAssist_request (access_token (auth a)));
                     EvFetch (loadCodeAssist_request (access_token (auth a)));
                     EvFetch (fetchAvailableModels_request (access_token (auth a)) project)]).
Proof.
  intros Hacc Hprobe w1 w'. subst w1 w'.
  rewrite (fetchData_probe_resolved _ _ _ _ Hacc Hprobe).
  rewrite (fetchData_models_run _ _ a) by (by rewrite loadCodeAssist_run).
  rewrite !loadCodeAssist_run. cbn [fst snd log with_log].
  destruct (wrapper_outcome (network env ((_ ++ _) ++ _))) as [session|e] eqn:Hsession.
  - destruct (js_get_after_in "error" "cloudaicompanionProject" session false
                (wrapper_outcome_resolved _ _ Hsession)) as [project Hproject].
    rewrite Hproject, !fetchAvailableModels_run. cbn [fst snd log with_log].
    destruct (wrapper_outcome (network env (((_ ++ _) ++ _) ++ _))) as [m|e'];
      settle_issued.
    all: repeat split; try reflexivity.
    all: intros session' project' [= <-]; rewrite Hproject; intros [= <-]; reflexivity.
  - settle_issued. repeat split; try reflexivity. discriminate.
Qed.

Lemma refresh_request_carries (clientId : string) (clientSecret : option string)
    (refresh_token : string) :
  exists params,
    body (refresh_request clientId clientSecret refresh_token) = FormBody params /\
    params_get "refresh_token" params = Some refresh_token.
Proof. destruct clientSecret; eexists; split; reflexivity. Qed.

Lemma refreshAccessToken_resolved (refresh_token : string) (w : World) (r : JValue) :
  fst (refreshAccessToken env refresh_token w) = Resolved r ->
  js_in "error" r = Resolved false /\
  heap (snd (refreshAccessToken env refresh_token w)) = heap w /\
  backups (snd (refreshAccessToken env refresh_token w)) = backups w /\
  data (snd (refreshAccessToken env refresh_token w)) = data w.
Proof.
  rewrite refreshAccessToken_cases.
  destruct (truthy _); cbn [fst snd]; [|discriminate].
  intros H. split; [by eapply wrapper_outcome_resolved|]. by repeat split.
Qed.

(** C3: one invocation of [fetchData] extends the history by at most one
    refresh request, and by none when the first session-initialisation
    call resolves. *)
Theorem at_most_one_refresh_per_call (antigravityAccount : nat) (w : World) :
  let w' := snd (fetchData env antigravityAccount w) in
  log w' = log w ++ issued w w' /\
  refresh_calls (issued w w') <= 1 /\
  (forall a r,
      heap w !! antigravityAccount = Some a ->
      fst (loadCodeAssist env (access_token (auth a)) w) = Resolved r ->
      refresh_calls (issued w w') = 0).
Proof.
  destruct (heap w !! antigravityAccount) as [a|] eqn:Hacc.
  - destruct (fetchData_footprint _ _ _ Hacc) as ([Hlog _ _ _] & Hle & Hzero & _).
    cbn zeta. split; [exact Hlog|]. split; [exact Hle|].
    intros a' r [= <-]. apply Hzero.
  - rewrite (fetchData_dangling _ _ Hacc). settle_issued.
    split; [by rewrite app_nil_r|]. split; [vm_compute; lia|]. discriminate.
Qed.

(** C9: an invocation that resolves leaves the cache entry of every other
    identity as it was; the cache is either untouched or gains or replaces
    the entry under the account's own email. *)
Theorem cache_of_other_identities_kept
    (antigravityAccount : nat) (w : World) (a : AntigravityAccount) :
  heap w !! antigravityAccount = Some a ->
  fst (fetchData env antigravityAccount w) = Resolved tt ->
  let w' := snd (fetchData env antigravityAccount w) in
  (forall identity, identity <> email (context a) ->
                    data w' !! identity = data w !! identity) /\
  (data w' = data w \/
   exists models, data w' = <[email (context a) := models]> (data w)).
Proof.
  intros Hacc Hok.
  destruct (fetchData_footprint _ _ _ Hacc) as ([_ _ _ Hdata] & _ & _ & Hentry).
  split; [|by apply Hentry].
  intros identity Hne. apply Hdata. congruence.
Qed.

Lemma issued_after_models
    (antigravityAccount : nat) (w w4 : World) (a4 : AntigravityAccount) (pre : list Event) :
  heap w4 !! antigravityAccount = Some a4 ->
  log w4 = log w ++ pre ->
  exists tail,
    issued w (snd (fetchData_models env antigravityAccount w4)) = pre ++ tail /\
    List.filter is_refresh_call tail = [].
Proof.
  intros Hacc Hpre.
  destruct (fetchData_models_footprint _ _ _ Hacc) as (_ & [Hlog _ _ _] & Hnone & _).
  eexists. split.
  - unfold issued at 1. by rewrite Hlog, Hpre, <- app_assoc, drop_app_length.
  - by apply nil_length_inv.
Qed.

(** C1 (amended): when the first session-initialisation call fails and the
    backend reports the account's own identity as the active one,
    [fetchData] issues no refresh request and writes no account object and
    no backup.  When the failure is an error response, a value with an
    ["error"] field, the invocation returns at once: the history gains the
    probe and the question to the backend only, and the model cache is what
    it was. *)
Theorem active_identity_is_not_refreshed
    (antigravityAccount : nat) (w : World) (a current : AntigravityAccount) (e : JValue) :
  heap w !! antigravityAccount = Some a ->
  fst (loadCodeAssist env (access_token (auth a)) w) = Rejected e ->
  fst (getCurrentAntigravityAccount env (snd (loadCodeAssist env (access_token (auth a)) w)))
  = Resolved (Some current) ->
  email (context current) = email (context a) ->
  let w' := snd (fetchData env antigravityAccount w) in
  refresh_calls (issued w w') = 0 /\
  heap w' = heap w /\
  backups w' = backups w /\
  (has_error_field e = true ->
   fst (fetchData env antigravityAccount w) = Resolved tt /\
   issued w w' = [EvFetch (loadCodeAssist_request (access_token (auth a)));
                  EvGetCurrentAntigravityAccount] /\
   data w' = data w).
Proof.
  intros Hacc Hprobe Hcur Hsame.
  destruct (js_in "error" e) as [[|]|te] eqn:Hin.
  - assert (has_error_field e = true) as Herr.
    { destruct e; simpl in Hin |- *; try discriminate. congruence. }
    rewrite (fetchData_active_identity_returns _ _ _ _ _ Hacc Hprobe Herr Hcur Hsame).
    cbn zeta. settle_issued. by repeat split.
  - rewrite (fetchData_probe_without_error _ _ _ e Hacc (or_intror Hprobe) Hin).
    destruct (fetchData_models_footprint antigravityAccount
                (snd (loadCodeAssist env (access_token (auth a)) w)) a)
      as (Hheap & [_ Hbackups _ _] & _); [by rewrite loadCodeAssist_run|].
    destruct (issued_after_models antigravityAccount w
                (snd (loadCodeAssist env (access_token (auth a)) w)) a
                [EvFetch (loadCodeAssist_request (access_token (auth a)))])
      as (tail & Hissued & Hnone); [by rewrite loadCodeAssist_run..|].
    cbn zeta. rewrite Hissued, Hheap, Hbackups, loadCodeAssist_run.
    unfold refresh_calls. rewrite List.filter_app, Hnone.
    split; [reflexivity|]. split; [reflexivity|]. split; [reflexivity|].
    intros Herr. rewrite (has_error_field_in _ Herr) in Hin. discriminate.
  - rewrite (fetchData_probe_primitive _ _ _ _ _ Hacc Hprobe Hin), loadCodeAssist_run.
    cbn zeta. settle_issued.
    split; [reflexivity|]. split; [reflexivity|]. split; [reflexivity|].
    intros Herr. rewrite (has_error_field_in _ Herr) in Hin. discriminate.
Qed.

Lemma refresh_grant_configured
    (antigravityAccount : nat) (w : World) (a : AntigravityAccount) (e : JValue)
    (current : option AntigravityAccount) (clientId : string) :
  heap w !! antigravityAccount = Some a ->
  fst (loadCodeAssist env (access_token (auth a)) w) = Rejected e ->
  has_error_field e = true ->
  let w1 := snd (loadCodeAssist env (access_token (auth a)) w) in
  fst (getCurrentAntigravityAccount env w1) = Resolved current ->
  strict_eq_email (email (context a)) (email <$> (context <$> current)) = false ->
  truthy (VITE_GOOGLE_OAUTH_CLIENT_ID env) = Some clientId ->
  let w' := snd (fetchData env antigravityAccount w) in
  let grant := refresh_request clientId (truthy (VITE_GOOGLE_OAUTH_CLIENT_SECRET env))
                 (id_token (auth a)) in
  take 3 (issued w w') = [EvFetch (loadCodeAssist_request (access_token (auth a)));
                          EvGetCurrentAntigravityAccount;
                          EvFetch grant] /\
  List.filter is_refresh_call (issued w w') = [EvFetch grant].
Proof.
  intros Hacc Hprobe Herr w1 Hcur Hne Hid w' grant.
  split.
  all: subst w' w1;
    rewrite (fetchData_probe_rejected _ _ _ _ _ Hacc Hprobe Herr Hcur Hne);
    rewrite (refreshAccessToken_run _ _ _ _ Hid); cbn zeta;
    unfold getCurrentAntigravityAccount; rewrite !loadCodeAssist_run;
    cbn [fst snd log heap with_log]; fold grant.
  all: destruct (wrapper_outcome (network env (((_ ++ _) ++ _) ++ _))) as [r|e'];
    [destruct (js_get "access_token" r) as [fresh|te]|]; try (settle_issued; reflexivity).
  all: match goal with
       | |- context [fetchData_models env ?l ?w4] =>
           destruct (issued_after_models l w w4 (assign_access_token fresh a)
                       [EvFetch (loadCodeAssist_request (access_token (auth a)));
                        EvGetCurrentAntigravityAccount; EvFetch grant])
             as (tail & -> & Hnone);
           [cbn [heap with_heap with_log]; apply lookup_insert_eq
           |cbn [log with_heap with_log]; by rewrite <- !app_assoc|]
       end.
  - reflexivity.
  - rewrite List.filter_app, Hnone. reflexivity.
Qed.

Lemma refresh_grant_unconfigured
    (antigravityAccount : nat) (w : World) (a : AntigravityAccount) (e : JValue)
    (current : option AntigravityAccount) :
  heap w !! antigravityAccount = Some a ->
  fst (loadCodeAssist env (access_token (auth a)) w) = Rejected e ->
  has_error_field e = true ->
  let w1 := snd (loadCodeAssist env (access_token (auth a)) w) in
  fst (getCurrentAntigravityAccount env w1) = Resolved current ->
  strict_eq_email (email (context a)) (email <$> (context <$> current)) = false ->
  truthy (VITE_GOOGLE_OAUTH_CLIENT_ID env) = None ->
  let w' := snd (fetchData env antigravityAccount w) in
  issued w w' = [EvFetch (loadCodeAssist_request (access_token (auth a)));
                 EvGetCurrentAntigravityAccount] /\
  exists e', fst (fetchData env antigravityAccount w) = Rejected e'.
Proof.
  intros Hacc Hprobe Herr w1 Hcur Hne Hid w'. subst w' w1.
  rewrite (fetchData_probe_rejected _ _ _ _ _ Hacc Hprobe Herr Hcur Hne).
  rewrite (refreshAccessToken_unconfigured _ _ _ Hid).
  unfold getCurrentAntigravityAccount. rewrite !loadCodeAssist_run.
  settle_issued. split; [reflexivity|]. eauto.
Qed.

(** C2 (amended): when the first session-initialisation call is rejected
    with an error response and the account is not the active one,
    [refreshAccessToken] is called with [auth.id_token]: every refresh
    request of the invocation carries [auth.id_token] as its [refresh_token]
    parameter.  With a client id configured there is exactly one such
    request, the third effect of the invocation, and no other field of the
    account is in it; without a client id no request is issued and the
    invocation rejects. *)
Theorem refresh_grant_uses_id_token
    (antigravityAccount : nat) (w : World) (a : AntigravityAccount) (e : JValue)
    (current : option AntigravityAccount) :
  heap w !! antigravityAccount = Some a ->
  fst (loadCodeAssist env (access_token (auth a)) w) = Rejected e ->
  has_error_field e = true ->
  let w1 := snd (loadCodeAssist env (access_token (auth a)) w) in
  fst (getCurrentAntigravityAccount env w1) = Resolved current ->
  strict_eq_email (email (context a)) (email <$> (context <$> current)) = false ->
  let w' := snd (fetchData env antigravityAccount w) in
  (forall r, In (EvFetch r) (issued w w') ->
             is_refresh_call (EvFetch r) = true ->
             exists params, body r = FormBody params /\
                            params_get "refresh_token" params = Some (id_token (auth a))) /\
  (forall clientId,
      truthy (VITE_GOOGLE_OAUTH_CLIENT_ID env) = Some clientId ->
      let grant := refresh_request clientId (truthy (VITE_GOOGLE_OAUTH_CLIENT_SECRET env))
                     (id_token (auth a)) in
      take 3 (issued w w') = [EvFetch (loadCodeAssist_request (access_token (auth a)));
                              EvGetCurrentAntigravityAccount;
                              EvFetch grant] /\
      List.filter is_refresh_call (issued w w') = [EvFetch grant]) /\
  (truthy (VITE_GOOGLE_OAUTH_CLIENT_ID env) = None ->
   issued w w' = [EvFetch (loadCodeAssist_request (access_token (auth a)));
                  EvGetCurrentAntigravityAccount] /\
   exists e', fst (fetchData env antigravityAccount w) = Rejected e').
Proof.
  intros Hacc Hprobe Herr w1 Hcur Hne w'.
  split; [|split].
  - intros r Hin Hcall.
    assert (In (EvFetch r) (List.filter is_refresh_call (issued w w'))) as Hgrant.
    { apply List.filter_In. by split. }
    destruct (truthy (VITE_GOOGLE_OAUTH_CLIENT_ID env)) as [clientId|] eqn:Hid.
    + destruct (refresh_grant_configured _ _ _ _ _ clientId Hacc Hprobe Herr Hcur Hne Hid)
        as [_ Hone].
      fold w' in Hone. rewrite Hone in Hgrant.
      destruct Hgrant as [[= <-]|[]]. apply refresh_request_carries.
    + destruct (refresh_grant_unconfigured _ _ _ _ _ Hacc Hprobe Herr Hcur Hne Hid)
        as [Hnone _].
      fold w' in Hnone. rewrite Hnone in Hgrant. destruct Hgrant.
  - intros clientId Hid. by apply (refresh_grant_configured _ _ _ e current).
  - intros Hid. by apply (refresh_grant_unconfigured _ _ _ e current).
Qed.

(** C5: when the refresh is performed and resolves, the invocation writes
    the [access_token] of the account object and nothing else: the other
    fields of the account, the other account objects and the backups at
    rest are what they were. *)
Theorem refresh_overwrites_access_token_only
    (antigravityAccount : nat) (w : World) (a : AntigravityAccount) (e : JValue)
    (current : option AntigravityAccount) (refreshTokenResponse : JValue) :
  heap w !! antigravityAccount = Some a ->
  fst (loadCodeAssist env (access_token (auth a)) w) = Rejected e ->
  has_error_field e = true ->
  let w1 := snd (loadCodeAssist env (access_token (auth a)) w) in
  fst (getCurrentAntigravityAccount env w1) = Resolved current ->
  strict_eq_email (email (context a)) (email <$> (context <$> current)) = false ->
  let w2 := snd (getCurrentAntigravityAccount env w1) in
  fst (refreshAccessToken env (id_token (auth a)) w2) = Resolved refreshTokenResponse ->
  let w' := snd (fetchData env antigravityAccount w) in
  exists fresh,
    js_get "access_token" refreshTokenResponse = Resolved fresh /\
    heap w' = <[antigravityAccount := assign_access_token fresh a]> (heap w) /\
    backups w' = backups w /\
    (exists a', heap w' !! antigravityAccount = Some a' /\
                access_token (auth a') = fresh /\
                refresh_handle (auth a') = refresh_handle (auth a) /\
                id_token (auth a') = id_token (auth a) /\
                context a' = context a /\
                raw_state a' = raw_state a /\
                token_state a' = token_state a) /\
    (forall other, other <> antigravityAccount -> heap w' !! other = heap w !! other).
Proof.
  intros Hacc Hprobe Herr w1 Hcur Hne w2 Hrefresh w'.
  destruct (refreshAccessToken_resolved _ _ _ Hrefresh) as (Hin & Hheap & Hbackups & _).
  destruct (js_get_after_in "error" "access_token" _ _ Hin) as [fresh Hfresh].
  exists fresh. split; [exact Hfresh|].
  assert (heap w2 = heap w /\ backups w2 = backups w) as [Hheap2 Hbackups2].
  { subst w2 w1. unfold getCurrentAntigravityAccount. by rewrite loadCodeAssist_run. }
  assert (heap w' = <[antigravityAccount := assign_access_token fresh a]> (heap w)
          /\ backups w' = backups w) as [Hheap' Hbackups'].
  { subst w'. rewrite (fetchData_probe_rejected _ _ _ _ _ Hacc Hprobe Herr Hcur Hne).
    fold w1 w2. destruct (refreshAccessToken env (id_token (auth a)) w2) as [c w3].
    cbn [fst snd] in *. subst c. rewrite Hfresh.
    match goal with
    | |- context [fetchData_models env ?l ?w4] =>
        destruct (fetchData_models_footprint l w4 (assign_access_token fresh a))
          as (Hh & [_ Hb _ _] & _);
        [cbn [heap with_heap]; apply lookup_insert_eq|]
    end.
    rewrite Hh, Hb. cbn [heap backups with_heap]. by rewrite Hheap, Hheap2, Hbackups, Hbackups2. }
  split; [exact Hheap'|]. split; [exact Hbackups'|]. split.
  - exists (assign_access_token fresh a). rewrite Hheap', lookup_insert_eq. by repeat split.
  - intros other Hother. rewrite Hheap'. by apply lookup_insert_ne.
Qed.

(** *** Budget and destinations of the requests *)

(** X5: one invocation of [fetchData] issues at most two
    session-initialisation calls, one model listing and one question to the
    backend: five effects at most. *)
Theorem fetchData_call_budget (antigravityAccount : nat) (w : World) :
  let new := issued w (snd (fetchData env antigravityAccount w)) in
  session_init_calls new <= 2 /\
  model_listing_calls new <= 1 /\
  backend_queries new <= 1 /\
  length new <= 5.
Proof.
  destruct (heap w !! antigravityAccount) as [a|] eqn:Hacc.
  - unfold fetchData, fetchData_refresh, fetchData_models. unfold_async.
    crunch; try impossible_response.
    all: settle_issued; vm_compute; lia.
  - rewrite (fetchData_dangling _ _ Hacc). settle_issued. vm_compute. lia.
Qed.

(** X6: every request of an invocation is a POST to one of three URLs: the
    session-initialisation endpoint, the model-listing endpoint or the OAuth
    token endpoint. *)
Theorem fetchData_contacts_known_urls (antigravityAccount : nat) (w : World) (r : Request) :
  In (EvFetch r) (issued w (snd (fetchData env antigravityAccount w))) ->
  method r = "POST" /\ In (url r) fetchData_urls.
Proof.
  destruct (heap w !! antigravityAccount) as [a|] eqn:Hacc.
  - unfold fetchData, fetchData_refresh, fetchData_models. unfold_async.
    crunch; try impossible_response.
    all: settle_issued; intros Hin; cbn [In app] in Hin.
    all: repeat match type of Hin with
           | _ \/ _ => destruct Hin as [Hin|Hin]
           end; try contradiction; try discriminate Hin.
    all: injection Hin as <-; split; [reflexivity|]; cbn; tauto.
  - rewrite (fetchData_dangling _ _ Hacc). settle_issued. intros [].
Qed.

(** *** What lines 40 to 49 issue *)

Lemma fetchData_models_issued
    (antigravityAccount : nat) (w : World) (a : AntigravityAccount) :
  heap w !! antigravityAccount = Some a ->
  let new := issued w (snd (fetchData_models env antigravityAccount w)) in
  new = [EvFetch (loadCodeAssist_request (access_token (auth a)))] \/
  exists project,
    new = [EvFetch (loadCodeAssist_request (access_token (auth a)));
           EvFetch (fetchAvailableModels_request (access_token (auth a)) project)].
Proof.
  intros Hacc. cbn zeta. rewrite (fetchData_models_run _ _ _ Hacc).
  rewrite loadCodeAssist_run.
  destruct (wrapper_outcome _) as [session|e]; [|left; by settle_issued].
  destruct (js_get "cloudaicompanionProject" session) as [project|te];
    [|left; by settle_issued].
  rewrite fetchAvailableModels_run. right. exists project.
  destruct (wrapper_outcome _); by settle_issued.
Qed.

Lemma issued_through
    (antigravityAccount : nat) (w w4 : World) (a4 : AntigravityAccount) (pre : list Event) :
  heap w4 !! antigravityAccount = Some a4 ->
  log w4 = log w ++ pre ->
  issued w (snd (fetchData_models env antigravityAccount w4))
  = pre ++ issued w4 (snd (fetchData_models env antigravityAccount w4)).
Proof.
  intros Hacc Hpre.
  destruct (fetchData_models_footprint _ _ _ Hacc) as (_ & [Hlog _ _ _] & _).
  unfold issued at 1. by rewrite Hlog, Hpre, <- app_assoc, drop_app_length.
Qed.

(** X7: when the first session-initialisation call settles with a value
    that has no ["error"] field, a thrown [Error] of a failed [fetch]
    included, lines 27 to 38 are skipped: the backend is not asked which
    account is active, nothing is refreshed, and the invocation goes on at
    line 40 as if the call had succeeded. *)
Theorem failure_without_error_field_skips_guard
    (antigravityAccount : nat) (w : World) (a : AntigravityAccount) (e : JValue) :
  heap w !! antigravityAccount = Some a ->
  fst (loadCodeAssist env (access_token (auth a)) w) = Rejected e ->
  js_in "error" e = Resolved false ->
  let w1 := snd (loadCodeAssist env (access_token (auth a)) w) in
  let w' := snd (fetchData env antigravityAccount w) in
  fetchData env antigravityAccount w = fetchData_models env antigravityAccount w1 /\
  backend_queries (issued w w') = 0 /\
  refresh_calls (issued w w') = 0 /\
  session_init_calls (issued w w') = 2.
Proof.
  intros Hacc Hprobe Hin w1 w'. subst w1 w'.
  rewrite (fetchData_probe_without_error _ _ _ e Hacc (or_intror Hprobe) Hin).
  split; [reflexivity|].
  rewrite (issued_through antigravityAccount w _ a
             [EvFetch (loadCodeAssist_request (access_token (auth a)))])
    by (by rewrite loadCodeAssist_run).
  destruct (fetchData_models_issued antigravityAccount
              (snd (loadCodeAssist env (access_token (auth a)) w)) a)
    as [->|[project ->]]; [by rewrite loadCodeAssist_run|..]; by repeat split.
Qed.

(** X8: when the first call is rejected with a primitive, a string for
    instance, the test of line 27 throws: the invocation rejects with a
    [TypeError] in place of the value that was thrown, after the one
    request, and leaves accounts, cache and backups alone. *)
Theorem primitive_rejection_becomes_TypeError
    (antigravityAccount : nat) (w : World) (a : AntigravityAccount) (e : JValue) :
  heap w !! antigravityAccount = Some a ->
  fst (loadCodeAssist env (access_token (auth a)) w) = Rejected e ->
  is_primitive e = true ->
  let w' := snd (fetchData env antigravityAccount w) in
  (exists message, fst (fetchData env antigravityAccount w) = Rejected (TypeError message) /\
                   TypeError message <> e) /\
  issued w w' = [EvFetch (loadCodeAssist_request (access_token (auth a)))] /\
  heap w' = heap w /\ data w' = data w /\ backups w' = backups w.
Proof.
  intros Hacc Hprobe Hprim.
  assert (exists message, js_in "error" e = Rejected (TypeError message)) as [message Hin].
  { destruct e; try discriminate Hprim; simpl; eauto. }
  rewrite (fetchData_probe_primitive _ _ _ _ _ Hacc Hprobe Hin), loadCodeAssist_run.
  cbn zeta. settle_issued. split; [|by repeat split].
  exists message. split; [reflexivity|]. intros <-. discriminate Hprim.
Qed.

(** *** Failures on the refresh path *)

(** X9: when the backend command that names the active account fails, the
    invocation rejects with that failure: no refresh is requested and
    nothing is written. *)
Theorem backend_failure_rejects_fetchData
    (antigravityAccount : nat) (w : World) (a : AntigravityAccount) (e e' : JValue) :
  heap w !! antigravityAccount = Some a ->
  fst (loadCodeAssist env (access_token (auth a)) w) = Rejected e ->
  has_error_field e = true ->
  fst (getCurrentAntigravityAccount env (snd (loadCodeAssist env (access_token (auth a)) w)))
  = Rejected e' ->
  let w' := snd (fetchData env antigravityAccount w) in
  fst (fetchData env antigravityAccount w) = Rejected e' /\
  issued w w' = [EvFetch (loadCodeAssist_request (access_token (auth a)));
                 EvGetCurrentAntigravityAccount] /\
  heap w' = heap w /\ data w' = data w /\ backups w' = backups w.
Proof.
  intros Hacc. rewrite !loadCodeAssist_run. cbn [fst snd]. intros Hprobe Herr.
  unfold getCurrentAntigravityAccount. cbn [fst snd log with_log]. intros Hcur.
  assert (fetchData env antigravityAccount w
          = (Rejected e',
             with_log (log w ++ [EvFetch (loadCodeAssist_request (access_token (auth a)));
                                 EvGetCurrentAntigravityAccount]) w)) as ->.
  { unfold fetchData. unfold try_catch, bind at 1 2 3 4, read at 1.
    rewrite Hacc, loadCodeAssist_run, Hprobe.
    unfold ret at 1, settle at 1. rewrite (has_error_field_in _ Herr).
    unfold fetchData_refresh, getCurrentAntigravityAccount.
    unfold bind at 1 2. cbn [fst snd log with_log]. rewrite Hcur.
    by rewrite <- app_assoc. }
  cbn zeta. settle_issued. by repeat split.
Qed.

(** X10: when the refresh grant fails (an error response such as
    [invalid_grant], a transport failure, a missing client id), the
    invocation rejects with the value the grant rejected with; the access
    token is not written, the session-initialisation call is not repeated
    and no model listing is requested. *)
Theorem refresh_failure_rejects_fetchData
    (antigravityAccount : nat) (w : World) (a : AntigravityAccount) (e e' : JValue)
    (current : option AntigravityAccount) :
  heap w !! antigravityAccount = Some a ->
  fst (loadCodeAssist env (access_token (auth a)) w) = Rejected e ->
  has_error_field e = true ->
  let w1 := snd (loadCodeAssist env (access_token (auth a)) w) in
  fst (getCurrentAntigravityAccount env w1) = Resolved current ->
  strict_eq_email (email (context a)) (email <$> (context <$> current)) = false ->
  let w2 := snd (getCurrentAntigravityAccount env w1) in
  fst (refreshAccessToken env (id_token (auth a)) w2) = Rejected e' ->
  let w' := snd (fetchData env antigravityAccount w) in
  fst (fetchData env antigravityAccount w) = Rejected e' /\
  heap w' = heap w /\ data w' = data w /\ backups w' = backups w /\
  session_init_calls (issued w w') = 1 /\
  model_listing_calls (issued w w') = 0.
Proof.
  intros Hacc Hprobe Herr w1 Hcur Hne w2 Hrefresh w'. subst w'.
  rewrite (fetchData_probe_rejected _ _ _ _ _ Hacc Hprobe Herr Hcur Hne).
  fold w1 w2. revert Hrefresh. rewrite refreshAccessToken_cases.
  subst w2 w1. unfold getCurrentAntigravityAccount. rewrite !loadCodeAssist_run.
  cbn [fst snd log with_log].
  destruct (truthy (VITE_GOOGLE_OAUTH_CLIENT_ID env)); cbn [fst snd]; intros Hrefresh.
  - rewrite Hrefresh. settle_issued. by repeat split.
  - injection Hrefresh as <-. settle_issued. by repeat split.
Qed.

(** X11: after a refresh that resolves, the value of [access_token] in the
    response, [undefined] when the response has no such field, is the token
    of every later request of the invocation: the session-initialisation
    call is repeated with it and the model listing uses it. *)
Theorem fresh_token_replaces_stale_token
    (antigravityAccount : nat) (w : World) (a : AntigravityAccount) (e : JValue)
    (current : option AntigravityAccount) (refreshTokenResponse : JValue) :
  heap w !! antigravityAccount = Some a ->
  fst (loadCodeAssist env (access_token (auth a)) w) = Rejected e ->
  has_error_field e = true ->
  let w1 := snd (loadCodeAssist env (access_token (auth a)) w) in
  fst (getCurrentAntigravityAccount env w1) = Resolved current ->
  strict_eq_email (email (context a)) (email <$> (context <$> current)) = false ->
  let w2 := snd (getCurrentAntigravityAccount env w1) in
  fst (refreshAccessToken env (id_token (auth a)) w2) = Resolved refreshTokenResponse ->
  let w' := snd (fetchData env antigravityAccount w) in
  exists fresh,
    js_get "access_token" refreshTokenResponse = Resolved fresh /\
    (forall props, refreshTokenResponse = JObj props ->
                   fresh = default JUndefined (own_property "access_token" props)) /\
    (drop 3 (issued w w') = [EvFetch (loadCodeAssist_request fresh)] \/
     exists project,
       drop 3 (issued w w') = [EvFetch (loadCodeAssist_request fresh);
                               EvFetch (fetchAvailableModels_request fresh project)]).
Proof.
  intros Hacc Hprobe Herr w1 Hcur Hne w2 Hrefresh w'.
  destruct (refreshAccessToken_resolved _ _ _ Hrefresh) as (Hin & Hheap & _).
  destruct (js_get_after_in "error" "access_token" _ _ Hin) as [fresh Hfresh].
  exists fresh. split; [exact Hfresh|]. split.
  { intros props ->. simpl in Hfresh. congruence. }
  subst w'. rewrite (fetchData_probe_rejected _ _ _ _ _ Hacc Hprobe Herr Hcur Hne).
  fold w1 w2.
  assert (exists grant,
             log (snd (refreshAccessToken env (id_token (auth a)) w2))
             = log w ++ [EvFetch (loadCodeAssist_request (access_token (auth a)));
                         EvGetCurrentAntigravityAccount; grant]) as [grant Hlog].
  { revert Hrefresh. rewrite refreshAccessToken_cases.
    subst w2 w1. unfold getCurrentAntigravityAccount. rewrite !loadCodeAssist_run.
    cbn [fst snd log with_log].
    destruct (truthy (VITE_GOOGLE_OAUTH_CLIENT_ID env)); cbn [fst snd]; [|discriminate].
    intros _. eexists. cbn [log with_log]. by rewrite <- !app_assoc. }
  destruct (refreshAccessToken env (id_token (auth a)) w2) as [c w3].
  cbn [fst snd] in *. subst c. rewrite Hfresh.
  set (w4 := with_heap _ w3).
  assert (heap w4 !! antigravityAccount = Some (assign_access_token fresh a)) as Hacc4.
  { subst w4. cbn [heap with_heap]. apply lookup_insert_eq. }
  rewrite (issued_through antigravityAccount w w4 _ _ Hacc4 Hlog).
  cbn [app drop].
  destruct (fetchData_models_issued _ _ _ Hacc4) as [->|[project ->]]; eauto.
Qed.

(** *** What an invocation keeps *)

Lemma fetchData_heap_without_refresh
    (antigravityAccount : nat) (w : World) (a : AntigravityAccount) :
  heap w !! antigravityAccount = Some a ->
  refresh_calls (issued w (snd (fetchData env antigravityAccount w))) = 0 ->
  heap (snd (fetchData env antigravityAccount w)) = heap w.
Proof.
  intros Hacc. unfold fetchData, fetchData_refresh, fetchData_models. unfold_async.
  crunch; try impossible_response.
  all: settle_issued; intros Hnone; try reflexivity.
  all: vm_compute in Hnone; discriminate Hnone.
Qed.

(** X12: whatever its outcome, an invocation keeps every field of the
    account but [auth.access_token], every other account object and the
    backups; and without a refresh request it keeps the account objects
    altogether. *)
Theorem fetchData_keeps_identity
    (antigravityAccount : nat) (w : World) (a : AntigravityAccount) :
  heap w !! antigravityAccount = Some a ->
  let w' := snd (fetchData env antigravityAccount w) in
  (exists a', heap w' !! antigravityAccount = Some a' /\ same_but_access_token a a') /\
  (forall other, other <> antigravityAccount -> heap w' !! other = heap w !! other) /\
  backups w' = backups w /\
  (refresh_calls (issued w w') = 0 -> heap w' = heap w).
Proof.
  intros Hacc w'.
  destruct (fetchData_footprint _ _ _ Hacc) as ([_ Hbackups Hheap _] & _).
  fold w' in Hbackups, Hheap.
  split; [|split; [|split; [exact Hbackups|by apply (fetchData_heap_without_refresh _ _ a)]]].
  - destruct Hheap as [->|(a0 & v & Ha0 & ->)].
    + exists a. split; [exact Hacc|]. by repeat split.
    + rewrite Hacc in Ha0. injection Ha0 as <-.
      exists (assign_access_token v a). rewrite lookup_insert_eq. by repeat split.
  - intros other Hother. destruct Hheap as [->|(a0 & v & _ & ->)]; [reflexivity|].
    by apply lookup_insert_ne.
Qed.

Lemma wrapper_outcome_resolved_eq (c : Completion JValue) (r : JValue) :
  wrapper_outcome c = Resolved r -> c = Resolved r.
Proof.
  destruct c as [v|e]; simpl; [|discriminate].
  destruct (js_in "error" v) as [[|]|]; intros [= <-]; reflexivity.
Qed.

Lemma fetchData_cached_value
    (antigravityAccount : nat) (w : World) (a : AntigravityAccount) :
  heap w !! antigravityAccount = Some a ->
  fst (fetchData env antigravityAccount w) = Resolved tt ->
  let w' := snd (fetchData env antigravityAccount w) in
  (data w' = data w /\ model_listing_calls (issued w w') = 0) \/
  exists models,
    data w' = <[email (context a) := models]> (data w) /\
    network env (log w') = Resolved models /\
    (exists token project,
        last (log w') = Some (EvFetch (fetchAvailableModels_request token project))) /\
    js_in "error" models = Resolved false /\
    model_listing_calls (issued w w') = 1.
Proof.
  intros Hacc. unfold fetchData, fetchData_refresh, fetchData_models. unfold_async.
  crunch; try impossible_response.
  all: cbn [fst snd log heap data backups with_log with_heap with_data
            email context assign_access_token];
    intros Hok; try discriminate Hok.
  all: try (left; split; [reflexivity|settle_issued; reflexivity]).
  all: right; eexists; split; [reflexivity|].
  all: split; [apply wrapper_outcome_resolved_eq; assumption|].
  all: split; [rewrite last_snoc; eexists; eexists; reflexivity|].
  all: split; [|settle_issued; reflexivity].
  all: match goal with
       | H : wrapper_outcome _ = Resolved ?m |- js_in "error" ?m = _ =>
           exact (wrapper_outcome_resolved _ _ H)
       end.
Qed.

(** X13: an invocation that resolves either returned at line 32 without
    asking for the models and left the cache as it was, or asked once, as
    its last effect, and stored under the account's email what the network
    answered to that request; what it stores never has an ["error"]
    field. *)
Theorem cache_never_holds_error_response
    (antigravityAccount : nat) (w : World) (a : AntigravityAccount) :
  heap w !! antigravityAccount = Some a ->
  fst (fetchData env antigravityAccount w) = Resolved tt ->
  let w' := snd (fetchData env antigravityAccount w) in
  (data w' = data w /\ model_listing_calls (issued w w') = 0) \/
  exists models,
    data w' = <[email (context a) := models]> (data w) /\
    network env (log w') = Resolved models /\
    (exists token project,
        last (log w') = Some (EvFetch (fetchAvailableModels_request token project))) /\
    has_error_field models = false /\
    js_in "error" models = Resolved false /\
    model_listing_calls (issued w w') = 1.
Proof.
  intros Hacc Hok w'.
  destruct (fetchData_cached_value _ _ _ Hacc Hok)
    as [Hsame|(models & Hdata & Hnet & Hlast & Hin & Hone)]; [by left|right].
  exists models. repeat split; try done.
  destruct models; simpl in Hin |- *; try reflexivity. congruence.
Qed.

(** X14: any number of invocations for the same account, one after the
    other, keep what one invocation keeps: the identity of the account and
    its fields other than the access token, the other account objects, the
    cache entries of the other identities and the backups; the history only
    grows. *)
Theorem repeated_fetchData_keeps_frame
    (antigravityAccount : nat) (w : World) (a : AntigravityAccount) (n : nat) :
  heap w !! antigravityAccount = Some a ->
  let wn := Nat.iter n (fun w0 => snd (fetchData env antigravityAccount w0)) w in
  (exists an, heap wn !! antigravityAccount = Some an /\ same_but_access_token a an) /\
  (forall other, other <> antigravityAccount -> heap wn !! other = heap w !! other) /\
  (forall identity, identity <> email (context a) -> data wn !! identity = data w !! identity) /\
  backups wn = backups w /\
  exists new, log wn = log w ++ new.
Proof.
  intros Hacc. induction n as [|n IH]; cbn zeta.
  - split; [exists a; split; [exact Hacc|by repeat split]|].
    repeat split; try reflexivity. exists []. by rewrite app_nil_r.
  - rewrite Nat.iter_succ. cbn zeta in IH.
    set (wn := Nat.iter n (fun w0 => snd (fetchData env antigravityAccount w0)) w) in *.
    destruct IH as ((an & Han & Hsame) & Hothers & Hdata & Hbackups & new & Hlog).
    destruct (fetchData_footprint _ _ _ Han) as ([Hlog' Hbackups' Hheap' Hdata'] & _).
    destruct Hsame as (Hrh & Hid & Hctx & Hraw & Hts).
    split; [|split; [|split; [|split]]].
    + destruct Hheap' as [->|(a0 & v & Ha0 & ->)].
      * exists an. split; [exact Han|]. by repeat split.
      * rewrite Han in Ha0. injection Ha0 as <-.
        exists (assign_access_token v an). rewrite lookup_insert_eq. by repeat split.
    + intros other Hother. rewrite <- (Hothers other Hother).
      destruct Hheap' as [->|(a0 & v & _ & ->)]; [reflexivity|].
      by apply lookup_insert_ne.
    + intros identity Hidentity. rewrite <- (Hdata identity Hidentity).
      apply Hdata'. rewrite Hctx. congruence.
    + by rewrite Hbackups'.
    + eexists. rewrite Hlog', Hlog, <- app_assoc. reflexivity.
Qed.

End FetchData.

(** ** The backup codec *)

Module BackupCodecProofs.
Import BackupCodec.

Lemma to_N_byte_of_N (n : N) : (n < 256)%N -> Byte.to_N (byte_of_N n) = n.
Proof.
  intros Hn. unfold byte_of_N. rewrite N.mod_small by exact Hn.
  destruct (Byte.of_N n) as [b|] eqn:Hb.
  - by apply Byte.to_of_N.
  - apply Byte.of_N_None_iff in Hb. lia.
Qed.

Lemma byte_of_N_to_N (b : byte) : byte_of_N (Byte.to_N b) = b.
Proof.
  unfold byte_of_N. pose proof (Byte.to_N_bounded b).
  rewrite N.mod_small by lia. by rewrite Byte.of_to_N.
Qed.

Lemma lxor_below_256 (x y : N) : (x < 256 -> y < 256 -> N.lxor x y < 256)%N.
Proof.
  intros Hx Hy. destruct (N.eq_dec (N.lxor x y) 0%N) as [->|Hne]; [lia|].
  change 256%N with (2 ^ 8)%N. apply N.log2_lt_pow2; [lia|].
  eapply N.le_lt_trans; [apply N.log2_lxor|].
  apply N.max_lub_lt.
  - destruct (N.eq_dec x 0%N) as [->|]; [reflexivity|]. apply N.log2_lt_pow2; lia.
  - destruct (N.eq_dec y 0%N) as [->|]; [reflexivity|]. apply N.log2_lt_pow2; lia.
Qed.

Lemma byte_xor_cancel (a b : byte) : byte_xor (byte_xor a b) b = a.
Proof.
  unfold byte_xor.
  pose proof (Byte.to_N_bounded a). pose proof (Byte.to_N_bounded b).
  rewrite to_N_byte_of_N by (apply lxor_below_256; lia).
  rewrite N.lxor_assoc, N.lxor_nilpotent, N.lxor_0_r.
  apply byte_of_N_to_N.
Qed.

Lemma length_xor_stream (data pad : list byte) :
  length data <= length pad -> length (xor_stream data pad) = length data.
Proof.
  revert pad. induction data as [|d data IH]; intros [|p pad]; simpl; intros Hlen;
    try reflexivity; try lia.
  rewrite IH; lia.
Qed.

Lemma xor_stream_cancel (data pad : list byte) :
  length data <= length pad -> xor_stream (xor_stream data pad) pad = data.
Proof.
  revert pad. induction data as [|d data IH]; intros [|p pad]; simpl; intros Hlen;
    try reflexivity; try lia.
  rewrite byte_xor_cancel, IH; [reflexivity|lia].
Qed.

Lemma length_N_to_bytes (len : nat) (n : N) : length (N_to_bytes len n) = len.
Proof.
  revert n. induction len as [|len IH]; intros n; simpl; [reflexivity|].
  rewrite length_app, IH. simpl. lia.
Qed.

Lemma blocks_cover (n : nat) : n <= 16 * ((n + 15) / 16).
Proof.
  pose proof (Nat.div_mod_eq (n + 15) 16).
  pose proof (Nat.mod_upper_bound (n + 15) 16). lia.
Qed.

(** GHASH on test case 2 of the GCM specification: one block of ciphertext,
    no associated data. *)
Example ghash_test_case_2 :
  ghash 0x66e94bd4ef8a2c3b884cfa59ca342b2e%N
    (N_to_bytes 16 0x0388dace60b6a392f328c2b971b2fe78%N
     ++ N_to_bytes 8 0%N ++ N_to_bytes 8 128%N)
  = 0xf38cbb1ad69223dcc3457ae5b6b0f885%N.
Proof. vm_compute. reflexivity. Qed.

Section SealedPath.
Context (pbkdf2_hmac_sha256 : list byte -> list byte -> N -> nat -> list byte).
Context (aes256_encrypt_block : list byte -> N -> N).
Context (base64_decode : string -> option (list byte)).

Lemma length_keystream (key : list byte) (cb : N) (blocks : nat) :
  length (keystream aes256_encrypt_block key cb blocks) = 16 * blocks.
Proof.
  revert cb. induction blocks as [|blocks IH]; intros cb; cbn [keystream];
    [reflexivity|].
  rewrite length_app, length_N_to_bytes, IH. lia.
Qed.

Lemma length_gctr (key : list byte) (icb : N) (data : list byte) :
  length (gctr aes256_encrypt_block key icb data) = length data.
Proof.
  unfold gctr. apply length_xor_stream.
  rewrite length_keystream. apply blocks_cover.
Qed.

(** Counter mode is its own inverse. *)
Lemma gctr_cancel (key : list byte) (icb : N) (data : list byte) :
  gctr aes256_encrypt_block key icb (gctr aes256_encrypt_block key icb data) = data.
Proof.
  unfold gctr at 1. rewrite length_gctr. unfold gctr.
  apply xor_stream_cancel. rewrite length_keystream. apply blocks_cover.
Qed.

Lemma length_gcm_tag (key iv aad ct : list byte) :
  length (gcm_tag aes256_encrypt_block key iv aad ct) = 16.
Proof. unfold gcm_tag. by rewrite length_gctr, length_N_to_bytes. Qed.

(** Opening what was sealed under the same key, nonce and associated
    data gives the plaintext back: the tag is recomputed from the same
    ciphertext and the counter mode is undone. *)
Lemma aes256_gcm_open_seal (key iv aad plaintext : list byte) :
  aes256_gcm_open aes256_encrypt_block key iv aad
    (aes256_gcm_seal aes256_encrypt_block key iv aad plaintext)
  = Some plaintext.
Proof.
  unfold aes256_gcm_open, aes256_gcm_seal.
  set (ct := gctr aes256_encrypt_block key (inc32 (gcm_J0 aes256_encrypt_block key iv))
               plaintext).
  rewrite length_app, length_gcm_tag.
  replace (length ct + 16 - 16) with (length ct) by lia.
  rewrite take_app_length, drop_app_length.
  destruct (Nat.ltb_spec (length ct + 16) 16) as [Hlt|_]; [lia|].
  rewrite bool_decide_eq_true_2 by reflexivity.
  subst ct. by rewrite gctr_cancel.
Qed.

(** C6: decoding what [encode] produced, with the same password, gives
    the payload back, whatever the random salt and nonce were. *)
Theorem decode_encode (raw_state : list byte) (password : string) (entropy : nat -> byte) :
  decode pbkdf2_hmac_sha256 aes256_encrypt_block base64_decode
    (encode pbkdf2_hmac_sha256 aes256_encrypt_block raw_state password entropy)
    password
  = inr raw_state.
Proof.
  unfold encode, decode, draw. cbn [version salt iterations nonce ciphertext].
  rewrite N.eqb_refl. by rewrite aes256_gcm_open_seal.
Qed.

End SealedPath.

End BackupCodecProofs.

(** ** The theorems on concrete runs *)

Module Runs.
Import Examples.

(** bob is not the active account and his token has expired: the probe, the
    question to the backend, one refresh, the session-initialisation call
    with the fresh token and the model listing for its project; the listing
    is cached under bob's email. *)
Example expired_token_run_bob :
  fst (fetchData env_expired 1 world0) = Resolved tt /\
  issued world0 (snd (fetchData env_expired 1 world0))
  = [EvFetch (loadCodeAssist_request (JStr "ya29.bob"));
     EvGetCurrentAntigravityAccount;
     EvFetch (refresh_request "client-id" (Some "client-secret") "idt-bob");
     EvFetch (loadCodeAssist_request (JStr "ya29.fresh"));
     EvFetch (fetchAvailableModels_request (JStr "ya29.fresh") (JStr "project-1"))] /\
  data (snd (fetchData env_expired 1 world0)) !! "bob@example.com" = Some some_models.
Proof. vm_compute. auto. Qed.

(** alice is the active account and her token has expired: nothing but
    the probe and the question to the backend happens. *)
Lemma active_identity_is_not_refreshed_alice :
  let w' := snd (fetchData env_expired 0 world0) in
  refresh_calls (issued world0 w') = 0 /\
  heap w' = heap world0 /\
  backups w' = backups world0 /\
  fst (fetchData env_expired 0 world0) = Resolved tt /\
  issued world0 w' = [EvFetch (loadCodeAssist_request (access_token (auth alice)));
                      EvGetCurrentAntigravityAccount] /\
  data w' = data world0.
Proof.
  destruct (active_identity_is_not_refreshed env_expired 0 world0 alice alice unauthenticated
              eq_refl eq_refl eq_refl eq_refl)
    as (Hrefresh & Hheap & Hbackups & Hreturn).
  exact (conj Hrefresh (conj Hheap (conj Hbackups (Hreturn eq_refl)))).
Defined.

(** bob is not the active account: the grant carries his [id_token]. *)
Lemma refresh_grant_uses_id_token_bob :
  List.filter is_refresh_call (issued world0 (snd (fetchData env_expired 1 world0)))
  = [EvFetch (refresh_request "client-id" (Some "client-secret") "idt-bob")].
Proof.
  destruct (refresh_grant_uses_id_token env_expired 1 world0 bob unauthenticated
              (Some alice) eq_refl eq_refl eq_refl eq_refl eq_refl) as (_ & Hconfigured & _).
  apply (Hconfigured "client-id" eq_refl).
Defined.

(** The same run against C2 as stated: the grant does not carry bob's
    refresh handle. *)
Lemma refresh_handle_not_used_bob :
  ~ refresh_grant_uses_refresh_handle env_expired 1 world0.
Proof.
  intros Hclaim.
  destruct (Hclaim bob unauthenticated (Some alice) eq_refl eq_refl eq_refl eq_refl eq_refl
              (refresh_request "client-id" (Some "client-secret") "idt-bob"))
    as (params & Hbody & Hhandle).
  - vm_compute. tauto.
  - reflexivity.
  - injection Hbody as <-. discriminate Hhandle.
Qed.

(** bob's refresh resolves: his access token is the fresh one and the
    rest of the world is as before. *)
Lemma refresh_overwrites_access_token_only_bob :
  heap (snd (fetchData env_expired 1 world0))
  = <[1 := assign_access_token (JStr "ya29.fresh") bob]> (heap world0) /\
  backups (snd (fetchData env_expired 1 world0)) = backups world0.
Proof.
  destruct (refresh_overwrites_access_token_only env_expired 1 world0 bob unauthenticated
              (Some alice) (JObj [("access_token", JStr "ya29.fresh")])
              eq_refl eq_refl eq_refl eq_refl eq_refl eq_refl)
    as (fresh & Hfresh & Hheap & Hbackups & _).
  injection Hfresh as <-. exact (conj Hheap Hbackups).
Defined.

(** A good token: no refresh request at all. *)
Lemma no_refresh_when_probe_resolves_alice :
  refresh_calls (issued world0 (snd (fetchData env_valid 0 world0))) = 0.
Proof.
  apply (at_most_one_refresh_per_call env_valid 0 world0)
    with (a := alice) (r := JObj [("cloudaicompanionProject", JStr "project-1")]);
    reflexivity.
Defined.

(** A good token: two session-initialisation calls, and the project of
    the second answer goes to the model listing. *)
Lemma probe_success_repeats_session_init_alice :
  issued world0 (snd (fetchData env_valid 0 world0))
  = [EvFetch (loadCodeAssist_request (JStr "ya29.alice"));
     EvFetch (loadCodeAssist_request (JStr "ya29.alice"));
     EvFetch (fetchAvailableModels_request (JStr "ya29.alice") (JStr "project-2"))].
Proof.
  apply (probe_success_repeats_session_init env_valid 0 world0 alice
           (JObj [("cloudaicompanionProject", JStr "project-1")]) eq_refl eq_refl)
    with (session := JObj [("cloudaicompanionProject", JStr "project-2")]);
    reflexivity.
Defined.

(** The same run against C4 as stated. *)
Lemma session_init_is_repeated_alice : ~ single_session_init env_valid 0 world0.
Proof.
  intros Hclaim.
  destruct (Hclaim alice (JObj [("cloudaicompanionProject", JStr "project-1")])
              eq_refl eq_refl) as [Hone _].
  vm_compute in Hone. discriminate Hone.
Qed.

(** Lines 40 to 49 for alice with a good token. *)
Lemma models_keyed_by_project_cached_by_email_alice :
  exists project,
    js_get "cloudaicompanionProject" (JObj [("cloudaicompanionProject", JStr "project-1")])
    = Resolved project /\
    issued world0 (snd (fetchData_models env_valid 0 world0))
    = [EvFetch (loadCodeAssist_request (JStr "ya29.alice"));
       EvFetch (fetchAvailableModels_request (JStr "ya29.alice") project)].
Proof.
  destruct (models_keyed_by_project_cached_by_email env_valid 0 world0 alice
              (JObj [("cloudaicompanionProject", JStr "project-1")]) eq_refl eq_refl)
    as (project & Hproject & _ & Hissued & _).
  exists project. exact (conj Hproject Hissued).
Defined.

(** A session without a project against C8 as stated: the listing is
    requested all the same and the invocation resolves. *)
Lemma missing_project_proceeds_alice : ~ missing_project_fails env_no_project 0 world0.
Proof.
  intros Hclaim.
  destruct (Hclaim alice (JObj []) eq_refl eq_refl eq_refl eq_refl) as [[e He] _].
  vm_compute in He. discriminate He.
Qed.

(** bob's entry is written, alice's is kept. *)
Lemma cache_of_other_identities_kept_bob :
  data (snd (fetchData env_expired 1 world0)) !! "alice@example.com"
  = data world0 !! "alice@example.com".
Proof.
  apply (cache_of_other_identities_kept env_expired 1 world0 bob); [reflexivity..|].
  discriminate.
Defined.

(** The wrappers on an error response. *)
Lemma wrappers_reject_iff_error_field_unauthenticated :
  settles_by_error_field unauthenticated
    (loadCodeAssist env_rejecting (JStr "ya29.bob") world0) world0 /\
  settles_by_error_field unauthenticated
    (fetchAvailableModels env_rejecting (JStr "ya29.bob") (JStr "project-1") world0) world0 /\
  settles_by_error_field unauthenticated
    (refreshAccessToken env_rejecting "idt-bob" world0) world0.
Proof.
  destruct (wrappers_reject_iff_error_field env_rejecting unauthenticated world0 eq_refl)
    as (Hload & Hmodels & Hrefresh).
  split; [|split].
  - apply Hload. reflexivity.
  - apply Hmodels. reflexivity.
  - apply (Hrefresh "idt-bob" "client-id"); reflexivity.
Defined.

(** Without a client id nothing is sent; with one the form is complete. *)
Lemma refreshAccessToken_credentials_both :
  (exists e, refreshAccessToken env_unconfigured "idt-bob" world0 = (Rejected e, world0)) /\
  (exists params,
      log (snd (refreshAccessToken env_expired "idt-bob" world0))
      = log world0 ++ [EvFetch {| url := GOOGLE_OAUTH_TOKEN_ENDPOINT;
                                  method := "POST";
                                  headers := [("content-type",
                                               Plain "application/x-www-form-urlencoded")];
                                  body := FormBody params |}] /\
      params_get "client_secret" params = Some "client-secret").
Proof.
  split.
  - apply (refreshAccessToken_credentials env_unconfigured "idt-bob" world0). reflexivity.
  - destruct (proj2 (refreshAccessToken_credentials env_expired "idt-bob" world0)
                "client-id" eq_refl) as (params & Hlog & _ & _ & _ & Hsecret & _).
    exists params. exact (conj Hlog Hsecret).
Defined.

End Runs.

(** ** The import dialog *)

Module ImportPasswordDialogProofs.
Import JSString ImportPasswordDialog.

Lemma trimStart_nil (s : list N) : trimStart s = [] <-> is_blank s = true.
Proof.
  unfold is_blank. induction s as [|c s IH]; simpl; [done|].
  destruct (is_white_space c); simpl; [exact IH|]. split; discriminate.
Qed.

Lemma is_blank_app (s t : list N) : is_blank (s ++ t) = is_blank s && is_blank t.
Proof. apply forallb_app. Qed.

Lemma is_blank_rev (s : list N) : is_blank (rev s) = is_blank s.
Proof.
  induction s as [|c s IH]; simpl; [reflexivity|].
  rewrite is_blank_app, IH. unfold is_blank at 2. simpl.
  rewrite andb_true_r. apply andb_comm.
Qed.

Lemma is_blank_trimStart (s : list N) : is_blank (trimStart s) = is_blank s.
Proof.
  induction s as [|c s IH]; simpl; [reflexivity|].
  destruct (is_white_space c) eqn:Hc; [exact IH|].
  unfold is_blank. simpl. by rewrite Hc.
Qed.

(** [trim] leaves nothing exactly of the strings that are blank. *)
Lemma trim_empty (s : list N) : is_empty (trim s) = is_blank s.
Proof.
  assert (is_empty (trim s) = true <-> is_blank s = true) as Hiff.
  { unfold trim, trimEnd.
    assert (forall t : list N, is_empty t = true <-> t = []) as Hempty.
    { intros [|]; simpl; split; done. }
    rewrite Hempty. split.
    - intros H. apply (f_equal (@rev N)) in H. rewrite rev_involutive in H. simpl in H.
      apply trimStart_nil in H. by rewrite is_blank_rev, is_blank_trimStart in H.
    - intros H. rewrite <- is_blank_trimStart, <- is_blank_rev in H.
      apply trimStart_nil in H. by rewrite H. }
  destruct (is_empty (trim s)), (is_blank s); try reflexivity.
  - symmetry. by apply Hiff.
  - by apply Hiff.
Qed.

Lemma submit_enabled_spec (s : State) :
  submit_enabled s = true <->
  is_blank (password s) = false /\ 4 <= length (password s) <= 50.
Proof.
  unfold submit_enabled, validatePassword. rewrite trim_empty.
  destruct (is_blank (password s)); simpl; [split; [done|by intros [? _]]|].
  destruct (Nat.ltb_spec (length (password s)) 4);
    [simpl; split; [done|lia]|].
  destruct (Nat.ltb_spec 50 (length (password s))); simpl; split; try done; lia.
Qed.

Lemma handleSubmit_cases (s : State) :
  (submit_enabled s = true ->
   handleSubmit s = (initial, [PreventDefault; OnSubmit (password s)])) /\
  (submit_enabled s = false ->
   exists shown,
     shown <> [] /\
     handleSubmit s = ({| password := password s; showPassword := showPassword s;
                          validationError := shown |}, [PreventDefault])).
Proof.
  unfold submit_enabled, handleSubmit, validatePassword.
  destruct (is_empty (trim (password s))); simpl.
  - split; [done|]. intros _. by exists msg_enter_password.
  - destruct (Nat.ltb (length (password s)) 4); simpl.
    + split; [done|]. intros _. by exists msg_too_short.
    + destruct (Nat.ltb 50 (length (password s))); simpl.
      * split; [done|]. intros _. by exists msg_too_long.
      * split; [done|]. discriminate.
Qed.

(** X15: [handleSubmit] calls [onSubmit] exactly when the submit button is
    enabled, that is when the password is not blank and has 4 to 50 code
    units.  It then hands over the password as typed, untrimmed, and resets
    the three state cells; otherwise it calls nothing but
    [preventDefault], keeps the password and shows a message. *)
Theorem handleSubmit_accepts_iff_enabled (s : State) :
  (submit_enabled s = true <->
   is_blank (password s) = false /\ 4 <= length (password s) <= 50) /\
  (submit_enabled s = true ->
   handleSubmit s = (initial, [PreventDefault; OnSubmit (password s)])) /\
  (submit_enabled s = false ->
   exists shown,
     shown <> [] /\
     handleSubmit s = ({| password := password s; showPassword := showPassword s;
                          validationError := shown |}, [PreventDefault])).
Proof. split; [apply submit_enabled_spec|apply handleSubmit_cases]. Qed.

(** X16: the message of a refused submission.  A blank password is asked
    for, whatever its length; a password that is not blank is told to be too
    short under 4 code units and too long over 50.  The fallback message of
    [handleSubmit] is never shown. *)
Theorem handleSubmit_messages (s : State) :
  let shown := validationError (fst (handleSubmit s)) in
  (is_blank (password s) = true -> shown = msg_enter_password) /\
  (is_blank (password s) = false -> length (password s) < 4 -> shown = msg_too_short) /\
  (is_blank (password s) = false -> 50 < length (password s) -> shown = msg_too_long) /\
  shown <> msg_invalid.
Proof.
  unfold handleSubmit, validatePassword. rewrite trim_empty.
  destruct (is_blank (password s)); simpl; [by repeat split|].
  destruct (Nat.ltb_spec (length (password s)) 4); simpl;
    [repeat split; try done; lia|].
  destruct (Nat.ltb_spec 50 (length (password s))); simpl;
    repeat split; try done; lia.
Qed.

Lemma handle_effects (ev : UIEvent) (s : State) (e : Effect) :
  In e (snd (handle ev s)) ->
  e = PreventDefault \/ e = OnOpenChange false \/
  (e = OnSubmit (password s) /\ submit_enabled s = true).
Proof.
  destruct ev; simpl; try tauto.
  - destruct (handleSubmit_cases s) as (Hyes & Hno).
    destruct (submit_enabled s).
    + rewrite (Hyes eq_refl). simpl. intros [<-|[<-|[]]]; auto.
    + destruct (Hno eq_refl) as (shown & _ & ->). simpl. intros [<-|[]]; auto.
  - intros [<-|[]]; auto.
Qed.

(** X17: whatever the user does, in whatever order, every password that
    reaches [onSubmit] is not blank and has 4 to 50 code units, and the
    [onCancel] prop is never called. *)
Theorem submitted_passwords_are_valid (evs : list UIEvent) (s : State) (e : Effect) :
  In e (snd (interact evs s)) ->
  e <> OnCancel /\
  forall submitted, e = OnSubmit submitted ->
                    is_blank submitted = false /\ 4 <= length submitted <= 50.
Proof.
  revert s. induction evs as [|ev evs IH]; intros s; simpl; [intros []|].
  destruct (handle ev s) as [s1 effects1] eqn:Hhandle.
  destruct (interact evs s1) as [s2 effects2] eqn:Hrest. simpl.
  intros Hin. apply in_app_or in Hin as [Hin|Hin].
  - pose proof (handle_effects ev s e) as Hcases. rewrite Hhandle in Hcases.
    destruct (Hcases Hin) as [->|[->|[-> Henabled]]]; (split; [discriminate|]).
    + discriminate.
    + discriminate.
    + intros submitted [= <-]. by apply submit_enabled_spec.
  - apply (IH s1). by rewrite Hrest.
Qed.

Lemma submit_enabled_password (s s' : State) :
  password s' = password s -> submit_enabled s' = submit_enabled s.
Proof. unfold submit_enabled. by intros ->. Qed.

(** X18: an accepted submission empties the password, so that each call of
    [onSubmit] needs a password typed for it: over any sequence of events
    the calls of [onSubmit] are at most the changes of the field, one more
    when the dialog started with a valid password. *)
Theorem each_submission_needs_typing (evs : list UIEvent) (s : State) :
  length (List.filter is_OnSubmit (snd (interact evs s)))
  <= length (List.filter is_Change evs) + (if submit_enabled s then 1 else 0).
Proof.
  revert s. induction evs as [|ev evs IH]; intros s; [simpl; lia|].
  cbn [interact].
  destruct (handle ev s) as [s1 effects1] eqn:Hhandle.
  specialize (IH s1). destruct (interact evs s1) as [s2 effects2]. cbn [snd] in *.
  rewrite List.filter_app, length_app.
  destruct ev; cbn [handle] in Hhandle; cbn [List.filter is_Change].
  - injection Hhandle as <- <-. cbn [List.filter length].
    destruct (submit_enabled _), (submit_enabled s); simpl in *; lia.
  - injection Hhandle as <- <-. cbn [List.filter length].
    rewrite (submit_enabled_password s _) in IH by reflexivity. simpl. lia.
  - destruct (handleSubmit_cases s) as (Hyes & Hno).
    destruct (submit_enabled s) eqn:Henabled.
    + rewrite (Hyes eq_refl) in Hhandle. injection Hhandle as <- <-.
      change (submit_enabled initial) with false in IH. simpl in *. lia.
    + destruct (Hno eq_refl) as (shown & _ & Hrefused).
      rewrite Hrefused in Hhandle. injection Hhandle as <- <-.
      rewrite (submit_enabled_password s _), Henabled in IH by reflexivity.
      simpl in *. lia.
  - injection Hhandle as <- <-.
    change (submit_enabled _) with false in IH. simpl in *.
    destruct (submit_enabled s); lia.
Qed.

End ImportPasswordDialogProofs.

(** ** The status screen *)

Module AntigravityStatusScreenProofs.
Import AntigravityStatusScreen.

Lemma next_dots_replicate (k : nat) :
  k <= 3 ->
  next_dots (replicate k dot) = replicate (if Nat.eqb k 3 then 0 else S k) dot.
Proof.
  intros Hk. unfold next_dots. rewrite length_replicate.
  destruct k as [|[|[|[|k]]]]; try reflexivity. lia.
Qed.

(** X19: the dots of the status screen cycle with period four: after [n]
    ticks of the interval there are [n mod 4] of them, never more than
    three. *)
Theorem dots_cycle (n : nat) :
  dots_after n = replicate (n mod 4) dot /\ length (dots_after n) <= 3.
Proof.
  assert (dots_after n = replicate (n mod 4) dot) as ->.
  { unfold dots_after. induction n as [|n IH]; [reflexivity|].
    rewrite Nat.iter_succ, IH.
    pose proof (Nat.mod_upper_bound n 4 ltac:(lia)) as Hlt.
    rewrite next_dots_replicate by lia. f_equal.
    pose proof (Nat.div_mod_eq n 4) as Hn.
    destruct (Nat.eqb_spec (n mod 4) 3) as [H3|H3].
    - apply (Nat.mod_unique (S n) 4 (S (n / 4)) 0); lia.
    - apply (Nat.mod_unique (S n) 4 (n / 4) (S (n mod 4))); lia. }
  split; [reflexivity|]. rewrite length_replicate.
  pose proof (Nat.mod_upper_bound n 4 ltac:(lia)). lia.
Qed.

End AntigravityStatusScreenProofs.

(** ** More theorems on concrete runs *)

Module MoreRuns.
Import Examples MoreExamples.

(** Offline: each wrapper rejects with the failure of [fetch]. *)
Lemma wrappers_pass_transport_failure_offline :
  fst (loadCodeAssist env_offline (JStr "ya29.bob") world0)
  = Rejected (JError "TypeError" "Failed to fetch") /\
  fst (fetchAvailableModels env_offline (JStr "ya29.bob") (JStr "project-1") world0)
  = Rejected (JError "TypeError" "Failed to fetch") /\
  fst (refreshAccessToken env_offline "idt-bob" world0)
  = Rejected (JError "TypeError" "Failed to fetch").
Proof.
  destruct (wrappers_pass_transport_failure env_offline
              (JError "TypeError" "Failed to fetch") world0) as (Hload & Hmodels & Hrefresh).
  split; [|split].
  - apply Hload. reflexivity.
  - apply Hmodels. reflexivity.
  - apply (Hrefresh "idt-bob" "client-id"); reflexivity.
Defined.

(** A [null] answer: each wrapper rejects with a [TypeError]. *)
Lemma wrappers_reject_primitive_response_null :
  (exists message,
      fst (loadCodeAssist env_null (JStr "ya29.bob") world0) = Rejected (TypeError message) /\
      TypeError message <> JNull) /\
  (exists message,
      fst (refreshAccessToken env_null "idt-bob" world0) = Rejected (TypeError message) /\
      TypeError message <> JNull).
Proof.
  destruct (wrappers_reject_primitive_response env_null JNull world0 eq_refl)
    as (Hload & _ & Hrefresh).
  split.
  - apply Hload. reflexivity.
  - apply (Hrefresh "idt-bob" "client-id"); reflexivity.
Defined.

(** The credentials of a configured build, and a build without them. *)
Lemma credentials_are_never_empty_configured :
  (VITE_GOOGLE_OAUTH_CLIENT_ID env_expired = Some "client-id" /\ "client-id" <> "") /\
  exists e, getGoogleOAuthClientCredentials env_unconfigured = Rejected e.
Proof.
  split.
  - destruct (proj1 (credentials_are_never_empty env_expired)
                "client-id" (Some "client-secret") eq_refl) as (Hid & Hne & _).
    exact (conj Hid Hne).
  - apply (credentials_are_never_empty env_unconfigured). right. reflexivity.
Defined.

(** The grant of bob's refresh goes to the token endpoint. *)
Lemma fetchData_contacts_known_urls_bob :
  method (refresh_request "client-id" (Some "client-secret") "idt-bob") = "POST" /\
  In (url (refresh_request "client-id" (Some "client-secret") "idt-bob")) fetchData_urls.
Proof.
  apply (fetchData_contacts_known_urls env_expired 1 world0). vm_compute. tauto.
Defined.

(** alice is the active account; her first request fails in transport and
    the second goes through: the backend is not asked and the models are
    fetched. *)
Lemma failure_without_error_field_skips_guard_alice :
  backend_queries (issued world0 (snd (fetchData env_transient 0 world0))) = 0 /\
  refresh_calls (issued world0 (snd (fetchData env_transient 0 world0))) = 0 /\
  session_init_calls (issued world0 (snd (fetchData env_transient 0 world0))) = 2.
Proof.
  apply (failure_without_error_field_skips_guard env_transient 0 world0 alice
           (JError "TypeError" "Failed to fetch")); reflexivity.
Defined.

(** The same run against C1 as stated: the first call of the active
    account has failed, and her cache entry is replaced. *)
Lemma active_identity_cache_rewritten_alice :
  ~ failed_probe_of_active_identity_changes_nothing env_transient 0 world0.
Proof.
  intros Hclaim.
  destruct (Hclaim alice alice (JError "TypeError" "Failed to fetch")
              eq_refl eq_refl eq_refl eq_refl) as (_ & _ & Hdata).
  apply (f_equal (fun d : gmap string JValue => d !! "alice@example.com")) in Hdata.
  vm_compute in Hdata. discriminate Hdata.
Qed.

(** The same run in full: the cache entry of the active account is
    replaced. *)
Example transient_failure_run_alice :
  fst (fetchData env_transient 0 world0) = Resolved tt /\
  issued world0 (snd (fetchData env_transient 0 world0))
  = [EvFetch (loadCodeAssist_request (JStr "ya29.alice"));
     EvFetch (loadCodeAssist_request (JStr "ya29.alice"));
     EvFetch (fetchAvailableModels_request (JStr "ya29.alice") (JStr "project-1"))] /\
  data (snd (fetchData env_transient 0 world0)) !! "alice@example.com" = Some some_models.
Proof. vm_compute. auto. Qed.

(** A rejection with a string. *)
Lemma primitive_rejection_becomes_TypeError_alice :
  (exists message, fst (fetchData env_string_rejection 0 world0) = Rejected (TypeError message) /\
                   TypeError message <> JStr "error sending request") /\
  issued world0 (snd (fetchData env_string_rejection 0 world0))
  = [EvFetch (loadCodeAssist_request (JStr "ya29.alice"))].
Proof.
  destruct (primitive_rejection_becomes_TypeError env_string_rejection 0 world0 alice
              (JStr "error sending request") eq_refl eq_refl eq_refl) as (Hreject & Hissued & _).
  exact (conj Hreject Hissued).
Defined.

(** The backend command fails for bob. *)
Lemma backend_failure_rejects_fetchData_bob :
  fst (fetchData env_backend_down 1 world0) = Rejected (JStr "database is locked") /\
  issued world0 (snd (fetchData env_backend_down 1 world0))
  = [EvFetch (loadCodeAssist_request (JStr "ya29.bob")); EvGetCurrentAntigravityAccount].
Proof.
  destruct (backend_failure_rejects_fetchData env_backend_down 1 world0 bob unauthenticated
              (JStr "database is locked") eq_refl eq_refl eq_refl eq_refl)
    as (Hreject & Hissued & _).
  exact (conj Hreject Hissued).
Defined.

(** The grant is refused for bob. *)
Lemma refresh_failure_rejects_fetchData_bob :
  fst (fetchData env_invalid_grant 1 world0) = Rejected invalid_grant /\
  heap (snd (fetchData env_invalid_grant 1 world0)) = heap world0 /\
  session_init_calls (issued world0 (snd (fetchData env_invalid_grant 1 world0))) = 1.
Proof.
  destruct (refresh_failure_rejects_fetchData env_invalid_grant 1 world0 bob unauthenticated
              invalid_grant (Some alice) eq_refl eq_refl eq_refl eq_refl eq_refl eq_refl)
    as (Hreject & Hheap & _ & _ & Hone & _).
  exact (conj Hreject (conj Hheap Hone)).
Defined.

(** The grant answers without an access token: the session-initialisation
    call is repeated with [undefined] for a token. *)
Lemma fresh_token_replaces_stale_token_undefined :
  drop 3 (issued world0 (snd (fetchData env_no_access_token 1 world0)))
  = [EvFetch (loadCodeAssist_request JUndefined)].
Proof.
  destruct (fresh_token_replaces_stale_token env_no_access_token 1 world0 bob unauthenticated
              None (JObj [("expires_in", JNum 3599)])
              eq_refl eq_refl eq_refl eq_refl eq_refl eq_refl)
    as (fresh & Hfresh & _ & [Hone|[project Htwo]]).
  - injection Hfresh as <-. exact Hone.
  - vm_compute in Htwo. discriminate Htwo.
Defined.

(** bob's refresh: alice's account object is the same afterwards. *)
Lemma fetchData_keeps_identity_bob :
  heap (snd (fetchData env_expired 1 world0)) !! 0 = heap world0 !! 0 /\
  backups (snd (fetchData env_expired 1 world0)) = backups world0.
Proof.
  destruct (fetchData_keeps_identity env_expired 1 world0 bob eq_refl)
    as (_ & Hothers & Hbackups & _).
  split; [|exact Hbackups]. apply Hothers. discriminate.
Defined.

(** bob's models are cached and are no error response. *)
Lemma cache_never_holds_error_response_bob :
  exists models,
    data (snd (fetchData env_expired 1 world0))
    = <["bob@example.com" := models]> (data world0) /\
    network env_expired (log (snd (fetchData env_expired 1 world0))) = Resolved models /\
    has_error_field models = false.
Proof.
  destruct (cache_never_holds_error_response env_expired 1 world0 bob eq_refl eq_refl)
    as [[_ Hnone]|(models & Hdata & Hnet & _ & Herr & _)].
  - vm_compute in Hnone. discriminate Hnone.
  - exists models. exact (conj Hdata (conj Hnet Herr)).
Defined.

(** Two invocations for bob, one after the other: alice's entry stays. *)
Lemma repeated_fetchData_keeps_frame_twice :
  data (Nat.iter 2 (fun w0 => snd (fetchData env_expired 1 w0)) world0) !! "alice@example.com"
  = data world0 !! "alice@example.com".
Proof.
  destruct (repeated_fetchData_keeps_frame env_expired 1 world0 bob 2 eq_refl)
    as (_ & _ & Hdata & _).
  apply Hdata. discriminate.
Defined.

Import JSString ImportPasswordDialog ImportPasswordDialogProofs.

(** "abcd1234" is accepted; "ab" is refused. *)
Lemma handleSubmit_accepts_iff_enabled_abcd1234 :
  handleSubmit {| password := abcd1234; showPassword := true; validationError := [] |}
  = (initial, [PreventDefault; OnSubmit abcd1234]) /\
  exists shown,
    shown <> [] /\
    handleSubmit {| password := [97; 98]%N; showPassword := true; validationError := [] |}
    = ({| password := [97; 98]%N; showPassword := true; validationError := shown |},
       [PreventDefault]).
Proof.
  split.
  - apply (handleSubmit_accepts_iff_enabled
             {| password := abcd1234; showPassword := true; validationError := [] |}).
    reflexivity.
  - apply (handleSubmit_accepts_iff_enabled
             {| password := [97; 98]%N; showPassword := true; validationError := [] |}).
    reflexivity.
Defined.

(** Sixty spaces are asked for a password, not told to be too long. *)
Lemma handleSubmit_messages_spaces :
  validationError
    (fst (handleSubmit {| password := replicate 60 32%N; showPassword := false;
                          validationError := [] |}))
  = msg_enter_password.
Proof.
  apply (handleSubmit_messages
           {| password := replicate 60 32%N; showPassword := false; validationError := [] |}).
  reflexivity.
Defined.

(** Typing "abcd1234" and submitting. *)
Lemma submitted_passwords_are_valid_abcd1234 :
  is_blank abcd1234 = false /\ 4 <= length abcd1234 <= 50.
Proof.
  apply (submitted_passwords_are_valid [Change abcd1234; Submit] initial (OnSubmit abcd1234));
    [|reflexivity].
  vm_compute. tauto.
Defined.

End MoreRuns.
